(** * A functional-programming toolkit for TypeScript: Either, Option,
      ReaderTaskEither and the schema codec

    The development follows the source files one module each:
    [Either] (either.ts), [Option] (option.ts), [Task] (task.ts) and
    [Schema] (validation.ts).  The TypeScript functions are translated to
    Rocq functions over a model of the values a JavaScript program handles;
    the theorems come after all the definitions. *)

From Stdlib Require Import String Ascii List Bool Arith Lia ZArith.
From Stdlib Require Import DecimalString DecimalNat.
Import ListNotations.
Open Scope string_scope.
Set Warnings "-register-all".

(* ===================================================================== *)
(** * either.ts *)
(* ===================================================================== *)

Module Either.

(** [type Either<L, R> = Left<L> | Right<R>]: the [_tag] field of the two
    object shapes is the constructor. *)
Inductive Either (L R : Type) : Type :=
| Left (left : L)
| Right (right : R).

Arguments Left {L R} left.
Arguments Right {L R} right.

Definition isRight {L R : Type} (e : Either L R) : bool :=
  match e with Right _ => true | Left _ => false end.

Definition isLeft {L R : Type} (e : Either L R) : bool :=
  match e with Left _ => true | Right _ => false end.

Definition map {L R R1 : Type} (fn : R -> R1) (e : Either L R) : Either L R1 :=
  match e with
  | Left l => Left l
  | Right r => Right (fn r)
  end.

Definition mapLeft {L R L1 : Type} (fn : L -> L1) (e : Either L R) : Either L1 R :=
  match e with
  | Right r => Right r
  | Left l => Left (fn l)
  end.

Definition flatMap {L R R1 : Type} (fn : R -> Either L R1) (either : Either L R)
  : Either L R1 :=
  match either with
  | Left l => Left l
  | Right r => fn r
  end.

End Either.

(* ===================================================================== *)
(** * The values of the host language *)
(* ===================================================================== *)

(** The data a schema is given is [unknown]: any value of the language.
    The model has [undefined], [null], booleans, numbers, strings,
    symbols, arrays, plain objects and functions.  The payload of a number
    is a parameter, since nothing in the library computes with numbers.
    An object is the list of its own properties in enumeration order, and
    so is a function; both have the prototype the language gives them at
    birth ([Object.prototype], [Function.prototype]).  Bigints are left
    out, and so are objects that contain themselves. *)
Inductive jsvalue (number : Type) : Type :=
| VUndefined
| VNull
| VBoolean (b : bool)
| VNumber (n : number)
| VString (s : string)
| VArray (items : list (jsvalue number))
| VObject (props : list (string * jsvalue number))
| VFunction (props : list (string * jsvalue number))
| VSymbol (description : string).

Arguments VUndefined {number}.
Arguments VNull {number}.
Arguments VBoolean {number} b.
Arguments VNumber {number} n.
Arguments VString {number} s.
Arguments VArray {number} items.
Arguments VObject {number} props.
Arguments VFunction {number} props.
Arguments VSymbol {number} description.

(** The built-in objects a value of the model can have as its prototype. *)
Inductive builtin : Type :=
| ObjectPrototype
| ArrayPrototype
| FunctionPrototype
| StringPrototype
| NumberPrototype
| BooleanPrototype
| SymbolPrototype.

(** What the library needs from the host: the number that is the length
    of an array; [===] on numbers (which [NaN] fails against itself, so it
    is not assumed reflexive); the UTF-16 code units of a string, each as
    the string of that unit; and what a value finds under a key along the
    chain that starts at a built-in prototype (the methods of
    [Object.prototype], for one, and under [__proto__] what its getter
    returns). *)
Class Runtime (number : Type) : Type := {
  number_of_nat : nat -> number;
  number_strict_equals : number -> number -> bool;
  code_units : string -> list string;
  member : builtin -> string -> option (jsvalue number)
}.

(** What [Literal] needs besides: [===] on two objects, arrays, functions
    or symbols compares references, which a tree of data does not record,
    and [JSON.stringify] as a template literal renders its result. *)
Class Host (number : Type) : Type := {
  same_reference : jsvalue number -> jsvalue number -> bool;
  JSON_stringify : jsvalue number -> string
}.

(** A call that either returns or throws.  What is thrown is an [Error];
    the library only ever reads its [message]. *)
Inductive completion (A : Type) : Type :=
| Returned (a : A)
| Thrown (message : string).

Arguments Returned {A} a.
Arguments Thrown {A} message.

Section Values.
Context {number : Type}.

(** [typeof v] *)
Definition typeof (v : jsvalue number) : string :=
  match v with
  | VUndefined => "undefined"
  | VNull => "object"
  | VBoolean _ => "boolean"
  | VNumber _ => "number"
  | VString _ => "string"
  | VArray _ => "object"
  | VObject _ => "object"
  | VFunction _ => "function"
  | VSymbol _ => "symbol"
  end.

(** [v === undefined] *)
Definition is_undefined (v : jsvalue number) : bool :=
  match v with VUndefined => true | _ => false end.

(** [v === null] *)
Definition is_null (v : jsvalue number) : bool :=
  match v with VNull => true | _ => false end.

(** [v == null]: loose equality with [null] holds of [null] and
    [undefined] only. *)
Definition is_nullish (v : jsvalue number) : bool :=
  match v with VUndefined | VNull => true | _ => false end.

(** [Array.isArray(v)] *)
Definition isArray (v : jsvalue number) : bool :=
  match v with VArray _ => true | _ => false end.

(** The string a template literal makes of an array index. *)
Definition index_string (i : nat) : string :=
  NilEmpty.string_of_uint (Nat.to_uint i).

(** Own properties of an object, looked up by key. *)
Fixpoint lookup (key : string) (props : list (string * jsvalue number))
  : option (jsvalue number) :=
  match props with
  | [] => None
  | (k, v) :: rest => if k =? key then Some v else lookup key rest
  end.

(** The element of a sequence whose index, [i] for the head, is written
    [key]. *)
Fixpoint element {A : Type} (key : string) (items : list A) (i : nat) : option A :=
  match items with
  | [] => None
  | item :: rest =>
      if index_string i =? key then Some item else element key rest (S i)
  end.

(** The own properties of an object once it is given [v] as its own
    property under [key], the way [JSON.parse] or an object literal with a
    computed key does: a property it has is overwritten in place, a new one
    comes last. *)
Fixpoint write_property (props : list (string * jsvalue number)) (key : string)
  (v : jsvalue number) : list (string * jsvalue number) :=
  match props with
  | [] => [(key, v)]
  | (k, old) :: rest =>
      if k =? key then (k, v) :: rest else (k, old) :: write_property rest key v
  end.

(** [result[key] = v] on the own properties of an object born with
    [Object.prototype].  Under the key [__proto__] the assignment reaches
    the setter the object inherits and makes no own property; what the
    setter does to the prototype of the object is not part of the list. *)
Definition set_property (props : list (string * jsvalue number)) (key : string)
  (v : jsvalue number) : list (string * jsvalue number) :=
  if key =? "__proto__" then props else write_property props key v.

(** The built-in object a value is born with as its prototype; [null]
    and [undefined] have none. *)
Definition prototype_of (v : jsvalue number) : option builtin :=
  match v with
  | VUndefined | VNull => None
  | VBoolean _ => Some BooleanPrototype
  | VNumber _ => Some NumberPrototype
  | VString _ => Some StringPrototype
  | VArray _ => Some ArrayPrototype
  | VObject _ => Some ObjectPrototype
  | VFunction _ => Some FunctionPrototype
  | VSymbol _ => Some SymbolPrototype
  end.

Context `{Runtime number}.

(** The own property of [obj] under [key], if it has one.  An array owns
    its elements under their indices and its [length]; a string its code
    units and its [length]; a boolean, a number or a symbol owns nothing. *)
Definition own_property (obj : jsvalue number) (key : string)
  : option (jsvalue number) :=
  match obj with
  | VObject props => lookup key props
  | VFunction props => lookup key props
  | VArray items =>
      if key =? "length" then Some (VNumber (number_of_nat (List.length items)))
      else element key items 0
  | VString s =>
      if key =? "length"
      then Some (VNumber (number_of_nat (List.length (code_units s))))
      else match element key (code_units s) 0 with
           | Some unit => Some (VString unit)
           | None => None
           end
  | _ => None
  end.

(** [Object.prototype.hasOwnProperty.call(obj, key)], for an [obj] that
    is neither [null] nor [undefined] (on those the call throws). *)
Definition has_own_property (obj : jsvalue number) (key : string) : bool :=
  match own_property obj key with Some _ => true | None => false end.

(** [obj[key]], for an [obj] that is neither [null] nor [undefined]: its
    own property; failing that what it inherits under the key along its
    prototype chain; failing that [undefined]. *)
Definition get_property (obj : jsvalue number) (key : string) : jsvalue number :=
  match own_property obj key with
  | Some v => v
  | None =>
      match prototype_of obj with
      | Some prototype =>
          match member prototype key with
          | Some inherited => inherited
          | None => VUndefined
          end
      | None => VUndefined
      end
  end.

Context `{Host number}.

(** [a === b] *)
Definition strict_equals (a b : jsvalue number) : bool :=
  match a, b with
  | VUndefined, VUndefined => true
  | VNull, VNull => true
  | VBoolean x, VBoolean y => Bool.eqb x y
  | VNumber x, VNumber y => number_strict_equals x y
  | VString x, VString y => x =? y
  | VArray _, VArray _ => same_reference a b
  | VObject _, VObject _ => same_reference a b
  | VFunction _, VFunction _ => same_reference a b
  | VSymbol _, VSymbol _ => same_reference a b
  | _, _ => false
  end.

End Values.

(* ===================================================================== *)
(** * option.ts *)
(* ===================================================================== *)

Module Option.
Section Option.
Context {number : Type}.

(** [type Option<A> = Some<A> | None].  The type parameter is erased when
    the program runs: the payload is a value of the language. *)
Inductive Option : Type :=
| Some (value : jsvalue number)
| None.

(** [fromNullable(value)]: [value == null ? None : Some(value)] *)
Definition fromNullable (value : jsvalue number) : Option :=
  if is_nullish value then None else Some value.

Definition isSome (option : Option) : bool :=
  match option with Some _ => true | None => false end.

Definition isNone (option : Option) : bool :=
  match option with None => true | Some _ => false end.

Definition bimap (option : Option) (fn : jsvalue number -> jsvalue number) : Option :=
  match option with
  | None => None
  | Some value =>
      let b := fn value in
      if is_nullish b then None else Some b
  end.

Definition map (fn : jsvalue number -> jsvalue number) (o : Option) : Option :=
  bimap o fn.

Definition flatMap (fn : jsvalue number -> Option) (o : Option) : Option :=
  match o with
  | Some value => fn value
  | None => None
  end.

Definition getOrElse (a : Option) (orElse : unit -> jsvalue number) : jsvalue number :=
  match a with
  | None => orElse tt
  | Some value => value
  end.

(** The invariant the type [Some<A>] documents with [NonNullable<A>]. *)
Definition non_nullable (o : Option) : Prop :=
  match o with
  | Some value => is_nullish value = false
  | None => True
  end.

End Option.
Arguments Option number : clear implicits.
End Option.

(* ===================================================================== *)
(** * task.ts *)
(* ===================================================================== *)

Module Task.
Import Either.
Section Task.

(** Everything the wrapped operations can read or change, and what a
    [throw] can carry. *)
Variable World : Type.
Variable Exception : Type.

(** How a promise ends: fulfilled, rejected, or never settled. *)
Inductive settlement (A : Type) : Type :=
| Fulfilled (a : A)
| Rejected (reason : Exception)
| Pending.

Arguments Fulfilled {A} a.
Arguments Rejected {A} reason.
Arguments Pending {A}.

(** A call that hands back a [Promise<A>], followed until the promise
    settles: the world it leaves and the settlement.  The body of an
    [async] function is read the same way: it returns ([Fulfilled]), throws
    ([Rejected]) or stays suspended at an [await] ([Pending]). *)
Definition Promise (A : Type) : Type := World -> World * settlement A.

(** A plain call, which returns or throws. *)
Inductive sync (A : Type) : Type :=
| Return (a : A)
| Throw (e : Exception).

Arguments Return {A} a.
Arguments Throw {A} e.

Definition Call (A : Type) : Type := World -> World * sync A.

(** [return a] in an [async] function *)
Definition async_return {A : Type} (a : A) : Promise A :=
  fun w => (w, Fulfilled a).

(** [const x = await p; k x]: the rest of the body runs in the world the
    settled promise leaves; a rejection is thrown at the [await]; an
    unsettled promise leaves the body suspended. *)
Definition await {A B : Type} (p : Promise A) (k : A -> Promise B) : Promise B :=
  fun w =>
    match p w with
    | (w', Fulfilled a) => k a w'
    | (w', Rejected e) => (w', Rejected e)
    | (w', Pending) => (w', Pending)
    end.

(** [try { body } catch (e) { handler e }] *)
Definition try_catch {A : Type} (body : Promise A) (handler : Exception -> Promise A)
  : Promise A :=
  fun w =>
    match body w with
    | (w', Rejected e) => handler e w'
    | settled => settled
    end.

(** The expression [f(x)] inside an [async] body, for a plain [f]. *)
Definition call {A : Type} (c : Call A) : Promise A :=
  fun w =>
    match c w with
    | (w', Return a) => (w', Fulfilled a)
    | (w', Throw e) => (w', Rejected e)
    end.

(** The expression [await f(x)], for an [f] declared to return a promise:
    the call itself may throw before it hands back one. *)
Definition call_async {A : Type} (c : Call (settlement A)) : Promise A :=
  fun w =>
    match c w with
    | (w', Return settled) => (w', settled)
    | (w', Throw e) => (w', Rejected e)
    end.

Definition Reader (E A : Type) : Type := E -> A.

(** [type TaskEither<L, R> = () => Promise<Either<L, R>>]: the thunk is
    the call that starts the promise. *)
Definition TaskEither (L R : Type) : Type := Promise (Either L R).

Definition ReaderTaskEither (E L R : Type) : Type := Reader E (TaskEither L R).

(** [f r] is the plain call [f(result.right)]. *)
Definition map {E L R B : Type} (f : R -> Call B)
  (readerTaskEither : ReaderTaskEither E L R) : ReaderTaskEither E L B :=
  fun runtime =>
    await (readerTaskEither runtime) (fun result =>
      match result with
      | Right r => await (call (f r)) (fun b => async_return (Right b))
      | Left l => async_return (Left l)
      end).

Definition fork {E L R : Type} (runtime : E)
  (readerTaskEither : ReaderTaskEither E L R) : Promise (Either L R) :=
  readerTaskEither runtime.

(** [f r runtime] is all of [f(computation.right)(runtime)()]: calling
    [f], the effect it returns, and its promise to the end. *)
Definition flatMap {E L R B : Type} (f : R -> ReaderTaskEither E L B)
  (readerTaskEither : ReaderTaskEither E L R) : ReaderTaskEither E L B :=
  fun runtime =>
    await (readerTaskEither runtime) (fun computation =>
      match computation with
      | Right r => f r runtime
      | Left l => async_return (Left l)
      end).

(** [from]: the cast [e as L] makes the failure type whatever was thrown. *)
Definition from {E R : Type} (f : E -> Call (settlement R))
  : ReaderTaskEither E Exception R :=
  fun runtime =>
    try_catch
      (await (call_async (f runtime)) (fun computation =>
         async_return (Right computation)))
      (fun e => async_return (Left e)).

End Task.

Arguments Fulfilled {Exception A} a.
Arguments Rejected {Exception A} reason.
Arguments Pending {Exception A}.
Arguments Return {Exception A} a.
Arguments Throw {Exception A} e.
Arguments async_return {World Exception A} a.
Arguments await {World Exception A B} p k.
Arguments try_catch {World Exception A} body handler.
Arguments call {World Exception A} c.
Arguments call_async {World Exception A} c.
Arguments map {World Exception E L R B} f readerTaskEither.
Arguments fork {World Exception E L R} runtime readerTaskEither.
Arguments flatMap {World Exception E L R B} f readerTaskEither.
Arguments from {World Exception E R} f.
End Task.

(* ===================================================================== *)
(** * validation.ts *)
(* ===================================================================== *)

Module Schema.
Import Either.
Section Schema.
Context {number : Type}.

(** [interface ValidationError]: [path] is optional. *)
Record ValidationError : Type := {
  path : option (list string);
  code : string;
  message : string;
  input : jsvalue number
}.

Definition Validation (A : Type) : Type := Either (list ValidationError) A.

(** [interface Schema<I, O>].  The markers [Encoded] and [Decoded] only
    carry types and are left out; [I] and [O] are erased to values. *)
Record Schema : Type := {
  decode : jsvalue number -> Validation (jsvalue number);
  encode : jsvalue number -> completion (jsvalue number);
  make : jsvalue number -> completion (jsvalue number)
}.

(** The default [encoder] of [makePrimitive]: [(x) => x]. *)
Definition identity (x : jsvalue number) : completion (jsvalue number) :=
  Returned x.

Definition makePrimitive (guard : jsvalue number -> bool) (typeName : string)
  (encoder : jsvalue number -> completion (jsvalue number)) : Schema :=
  {| decode := fun data =>
       if guard data then Right data
       else Left [ {| path := None;
                      code := "invalid_type";
                      message := "Expected " ++ typeName ++ ", received " ++ typeof data;
                      input := data |} ];
     encode := encoder;
     make := fun data =>
       if guard data then Returned data
       else Thrown ("Validation failed: Expected " ++ typeName
                    ++ ", received " ++ typeof data) |}.

(** [err.path || []] *)
Definition path_or_empty (err : ValidationError) : list string :=
  match path err with Some p => p | None => [] end.

(** [{ ...err, path: [key, ...(err.path || [])] }] *)
Definition with_key (key : string) (err : ValidationError) : ValidationError :=
  {| path := Some (key :: path_or_empty err);
     code := code err;
     message := message err;
     input := input err |}.

(** The error [Struct] pushes for a field that reads [undefined]. *)
Definition required (key : string) : ValidationError :=
  {| path := Some [key];
     code := "required";
     message := "Required field " ++ key ++ " is missing";
     input := VUndefined |}.

(** The error [Struct] returns for an input that is no object. *)
Definition not_an_object (data : jsvalue number) : ValidationError :=
  {| path := None;
     code := "invalid_type";
     message := "Expected object, received "
                ++ (if is_null data then "null" else typeof data);
     input := data |}.

(** The error [List] returns for an input that is no array. *)
Definition not_an_array (data : jsvalue number) : ValidationError :=
  {| path := None;
     code := "invalid_type";
     message := "Expected array, received " ++ typeof data;
     input := data |}.

(** The callback of [make] in [Struct] and in [List]:
    [pathStr ? pathStr + ": " : ""] followed by the message. *)
Definition format_error (err : ValidationError) : string :=
  let pathStr := match path err with Some p => String.concat "." p | None => "" end in
  (if pathStr =? "" then "" else pathStr ++ ": ") ++ message err.

Definition errorsFormatted (errors : list ValidationError) : string :=
  String.concat ", " (List.map format_error errors).

Context `{Runtime number}.

(** The loop of [Struct]'s [decode] over the declared fields, in the order
    [for (const key in validators)] enumerates them, with the two
    accumulators [result] and [errors]. *)
Fixpoint decode_fields (validators : list (string * Schema)) (obj : jsvalue number)
  (result : list (string * jsvalue number)) (errors : list ValidationError)
  : list (string * jsvalue number) * list ValidationError :=
  match validators with
  | [] => (result, errors)
  | (key, validator) :: rest =>
      let value := get_property obj key in
      if is_undefined value then
        decode_fields rest obj result (errors ++ [required key])
      else
        match decode validator value with
        | Right r => decode_fields rest obj (set_property result key r) errors
        | Left nested =>
            decode_fields rest obj result (errors ++ List.map (with_key key) nested)
        end
  end.

(** The loop of [Struct]'s [encode] over [Object.keys(validators)].
    [hasOwnProperty.call(value, key)] throws a [TypeError] on [null] and
    [undefined]. *)
Fixpoint encode_fields (validators : list (string * Schema)) (value : jsvalue number)
  (result : list (string * jsvalue number))
  : completion (list (string * jsvalue number)) :=
  match validators with
  | [] => Returned result
  | (key, validator) :: rest =>
      if is_nullish value then
        Thrown "Cannot convert undefined or null to object"
      else if has_own_property value key then
        let propertyValue := get_property value key in
        if negb (is_undefined propertyValue) then
          match encode validator propertyValue with
          | Returned encoded =>
              encode_fields rest value (set_property result key encoded)
          | Thrown m => Thrown m
          end
        else encode_fields rest value result
      else encode_fields rest value result
  end.

(** [validators] is the record of field schemas, as the list of its
    entries in enumeration order. *)
Definition Struct (validators : list (string * Schema)) : Schema :=
  let decode := fun data : jsvalue number =>
    if negb (typeof data =? "object") || is_null data then
      Left [not_an_object data]
    else
      let '(result, errors) := decode_fields validators data [] [] in
      if (0 <? length errors)%nat then Left errors
      else Right (VObject result) in
  {| decode := decode;
     encode := fun value =>
       match encode_fields validators value [] with
       | Returned result => Returned (VObject result)
       | Thrown m => Thrown m
       end;
     make := fun data =>
       match decode data with
       | Left errors => Thrown ("Validation failed: " ++ errorsFormatted errors)
       | Right r => Returned r
       end |}.

Definition String : Schema :=
  makePrimitive (fun a => typeof a =? "string") "string" identity.

Definition Number : Schema :=
  makePrimitive (fun a => typeof a =? "number") "number" identity.

Definition Boolean : Schema :=
  makePrimitive (fun a => typeof a =? "boolean") "boolean" identity.

Definition Null : Schema :=
  makePrimitive is_null "null" identity.

Definition Undefined : Schema :=
  makePrimitive is_undefined "undefined" identity.

(** [transform(schema, transformer, reverseTransformer)] *)
Definition transform (schema : Schema)
  (transformer reverseTransformer : jsvalue number -> completion (jsvalue number))
  : Schema :=
  let decode := fun data : jsvalue number =>
    match decode schema data with
    | Left errors => Left errors
    | Right a =>
        match transformer a with
        | Returned b => Right b
        | Thrown m =>
            Left [ {| path := None;
                      code := "transform_error";
                      message := "Transformation error: " ++ m;
                      input := a |} ]
        end
    end in
  {| decode := decode;
     encode := fun value =>
       match reverseTransformer value with
       | Returned a =>
           match encode schema a with
           | Returned i => Returned i
           | Thrown m => Thrown ("Encoding error: " ++ m)
           end
       | Thrown m => Thrown ("Encoding error: " ++ m)
       end;
     make := fun data =>
       match decode data with
       | Left errors =>
           Thrown ("Validation failed: "
                   ++ String.concat ", " (List.map message errors))
       | Right r => Returned r
       end |}.

(** The loop of [List]'s [decode]; [i] is the index of the head of [data]. *)
Fixpoint decode_items (itemSchema : Schema) (data : list (jsvalue number)) (i : nat)
  (results : list (jsvalue number)) (errors : list ValidationError)
  : list (jsvalue number) * list ValidationError :=
  match data with
  | [] => (results, errors)
  | item :: rest =>
      match decode itemSchema item with
      | Right r => decode_items itemSchema rest (S i) (results ++ [r]) errors
      | Left nested =>
          decode_items itemSchema rest (S i) results
            (errors ++ List.map (with_key (index_string i)) nested)
      end
  end.

(** [value.map((item) => itemSchema.encode(item))]: the first throw ends it. *)
Fixpoint encode_items (itemSchema : Schema) (value : list (jsvalue number))
  : completion (list (jsvalue number)) :=
  match value with
  | [] => Returned []
  | item :: rest =>
      match encode itemSchema item with
      | Thrown m => Thrown m
      | Returned i =>
          match encode_items itemSchema rest with
          | Thrown m => Thrown m
          | Returned others => Returned (i :: others)
          end
      end
  end.

Definition List (itemSchema : Schema) : Schema :=
  let decode := fun data : jsvalue number =>
    match data with
    | VArray items =>
        let '(results, errors) := decode_items itemSchema items 0 [] [] in
        if (0 <? length errors)%nat then Left errors
        else Right (VArray results)
    | _ => Left [not_an_array data]
    end in
  {| decode := decode;
     encode := fun value =>
       match value with
       | VArray items =>
           match encode_items itemSchema items with
           | Returned encoded => Returned (VArray encoded)
           | Thrown m => Thrown m
           end
       | _ => Thrown "value.map is not a function" (* a TypeError *)
       end;
     make := fun data =>
       match decode data with
       | Left errors => Thrown ("Validation failed: " ++ errorsFormatted errors)
       | Right r => Returned r
       end |}.

(** ** Vocabulary of the statements about [Struct] and [List] *)

(** The errors one declared field stands for in the result of a [Struct]:
    the [required] error when the field reads [undefined], the errors of
    its schema under the field's key when that fails, none otherwise. *)
Definition field_errors (data : jsvalue number) (field : string * Schema)
  : list ValidationError :=
  let value := get_property data (fst field) in
  if is_undefined value then [required (fst field)]
  else
    match decode (snd field) value with
    | Left nested => List.map (with_key (fst field)) nested
    | Right _ => []
    end.

(** The property one declared field stands for in the decoded object. *)
Definition field_decoded (data : jsvalue number) (field : string * Schema)
  : list (string * jsvalue number) :=
  let value := get_property data (fst field) in
  if is_undefined value then []
  else
    match decode (snd field) value with
    | Left _ => []
    | Right r => [(fst field, r)]
    end.

(** Writing all the decoded properties into [result], one after the other. *)
Definition assign_all (result decoded : list (string * jsvalue number))
  : list (string * jsvalue number) :=
  fold_left (fun acc p => set_property acc (fst p) (snd p)) decoded result.

(** The errors the elements of an array stand for in the result of a
    [List], [i] being the index of the first: those of each failing
    element under its index. *)
Fixpoint items_errors (itemSchema : Schema) (items : list (jsvalue number)) (i : nat)
  : list ValidationError :=
  match items with
  | [] => []
  | item :: rest =>
      (match decode itemSchema item with
       | Left nested => List.map (with_key (index_string i)) nested
       | Right _ => []
       end ++ items_errors itemSchema rest (S i))%list
  end.

(** The element one item stands for in the decoded array. *)
Definition item_decoded (itemSchema : Schema) (item : jsvalue number)
  : list (jsvalue number) :=
  match decode itemSchema item with
  | Left _ => []
  | Right r => [r]
  end.

(** The first segment of the path of [err] is [key]. *)
Definition under (key : string) (err : ValidationError) : bool :=
  match path err with
  | Some (k :: _) => k =? key
  | _ => false
  end.

(** [typeof data === "object" && data !== null] *)
Definition is_object (data : jsvalue number) : bool :=
  (typeof data =? "object") && negb (is_null data).

(** ** Schemas built from [makePrimitive], [Struct] and [List] only *)

Inductive shape : Type :=
| SPrimitive (guard : jsvalue number -> bool) (typeName : string)
    (encoder : jsvalue number -> completion (jsvalue number))
| SStruct (fields : list (string * shape))
| SList (item : shape).

(** The schema the constructors build for a shape. *)
Fixpoint schema_of (s : shape) : Schema :=
  match s with
  | SPrimitive guard typeName encoder => makePrimitive guard typeName encoder
  | SStruct fields =>
      Struct (List.map (fun field => (fst field, schema_of (snd field))) fields)
  | SList item => List (schema_of item)
  end.

(** Structural equality of [encoded] and [original] on the declared fields
    only: a primitive is the same value, two arrays agree element by
    element, and at a struct only the declared fields are compared, each at
    the shape declared for it. *)
Fixpoint agree (s : shape) (encoded original : jsvalue number) : Prop :=
  match s with
  | SPrimitive _ _ _ => encoded = original
  | SStruct fields =>
      (fix each (fs : list (string * shape)) : Prop :=
         match fs with
         | [] => Logic.True
         | field :: rest =>
             agree (snd field) (get_property encoded (fst field))
               (get_property original (fst field))
             /\ each rest
         end) fields
  | SList item =>
      match encoded, original with
      | VArray es, VArray os => Forall2 (agree item) es os
      | _, _ => Logic.False
      end
  end.

(** A record names each of its fields once, and none of them
    [__proto__]. *)
Fixpoint ordinary_fields (s : shape) : Prop :=
  match s with
  | SPrimitive _ _ _ => Logic.True
  | SStruct fields =>
      NoDup (List.map fst fields)
      /\ ~ In "__proto__" (List.map fst fields)
      /\ (fix each (fs : list (string * shape)) : Prop :=
            match fs with
            | [] => Logic.True
            | field :: rest => ordinary_fields (snd field) /\ each rest
            end) fields
  | SList item => ordinary_fields item
  end.

(** Every primitive's [encoder] hands back what its guard accepts, as the
    default encoder does. *)
Fixpoint plain_encoders (s : shape) : Prop :=
  match s with
  | SPrimitive guard _ encoder =>
      forall x, guard x = true -> encoder x = Returned x
  | SStruct fields =>
      (fix each (fs : list (string * shape)) : Prop :=
         match fs with
         | [] => Logic.True
         | field :: rest => plain_encoders (snd field) /\ each rest
         end) fields
  | SList item => plain_encoders item
  end.

(** The record of field schemas [schema_of] hands to [Struct]. *)
Definition validators_of (fields : list (string * shape)) : list (string * Schema) :=
  List.map (fun field => (fst field, schema_of (snd field))) fields.

(** A shape whose records name each field once and whose primitives
    encode by the identity gives back, on encoding what it decoded, a value
    that agrees with the input. *)
Definition round_trips (s : shape) : Prop :=
  ordinary_fields s -> plain_encoders s ->
  forall v decoded,
    decode (schema_of s) v = Right decoded ->
    exists encoded,
      encode (schema_of s) decoded = Returned encoded /\ agree s encoded v.

(** ** What [make] is specified to do with the outcome of [decode] *)

Definition reports (s : Schema) (data : jsvalue number) : Prop :=
  make s data
  = match decode s data with
    | Left errors => Thrown ("Validation failed: " ++ errorsFormatted errors)
    | Right r => Returned r
    end.

Context `{Host number}.

Definition True : Schema :=
  makePrimitive
    (fun a => (typeof a =? "boolean") && strict_equals a (VBoolean true))
    "true" identity.

Definition False : Schema :=
  makePrimitive
    (fun a => (typeof a =? "boolean") && strict_equals a (VBoolean false))
    "boolean" identity.

Definition Literal (literal : jsvalue number) : Schema :=
  {| decode := fun data =>
       if strict_equals data literal then Right literal
       else Left [ {| path := None;
                      code := "invalid_literal";
                      message := "Expected " ++ JSON_stringify literal
                                 ++ ", received " ++ JSON_stringify data;
                      input := data |} ];
     encode := fun value =>
       if negb (strict_equals value literal) then
         Thrown ("Cannot encode: Expected " ++ JSON_stringify literal
                 ++ ", received " ++ JSON_stringify value)
       else Returned value;
     make := fun data =>
       if negb (strict_equals data literal) then
         Thrown ("Validation failed: Expected " ++ JSON_stringify literal
                 ++ ", received " ++ JSON_stringify data)
       else Returned literal |}.

End Schema.

Arguments ValidationError number : clear implicits.
Arguments Schema number : clear implicits.
Arguments shape number : clear implicits.
End Schema.

(* ===================================================================== *)
(** * Concrete hosts for the examples *)
(* ===================================================================== *)

(** A built-in function as the examples show it: by its [length] and its
    [name], the two properties every function owns (a constructor owns
    more, which the examples do not read). *)
Definition method {number : Type} (of_nat : nat -> number) (name : string)
  (arity : nat) : jsvalue number :=
  VFunction [("length", VNumber (of_nat arity)); ("name", VString name)].

(** The methods [Object.prototype] owns. *)
Definition object_methods {number : Type} (of_nat : nat -> number)
  : list (string * jsvalue number) :=
  [("constructor", method of_nat "Object" 1);
   ("__defineGetter__", method of_nat "__defineGetter__" 2);
   ("__defineSetter__", method of_nat "__defineSetter__" 2);
   ("hasOwnProperty", method of_nat "hasOwnProperty" 1);
   ("__lookupGetter__", method of_nat "__lookupGetter__" 1);
   ("__lookupSetter__", method of_nat "__lookupSetter__" 1);
   ("isPrototypeOf", method of_nat "isPrototypeOf" 1);
   ("propertyIsEnumerable", method of_nat "propertyIsEnumerable" 1);
   ("toString", method of_nat "toString" 0);
   ("valueOf", method of_nat "valueOf" 0);
   ("toLocaleString", method of_nat "toLocaleString" 0)].

(** The methods [Array.prototype] owns, in a host of the 2016 edition of
    the language. *)
Definition array_methods {number : Type} (of_nat : nat -> number)
  : list (string * jsvalue number) :=
  [("constructor", method of_nat "Array" 1);
   ("concat", method of_nat "concat" 1);
   ("copyWithin", method of_nat "copyWithin" 2);
   ("fill", method of_nat "fill" 1);
   ("find", method of_nat "find" 1);
   ("findIndex", method of_nat "findIndex" 1);
   ("lastIndexOf", method of_nat "lastIndexOf" 1);
   ("pop", method of_nat "pop" 0);
   ("push", method of_nat "push" 1);
   ("reverse", method of_nat "reverse" 0);
   ("shift", method of_nat "shift" 0);
   ("unshift", method of_nat "unshift" 1);
   ("slice", method of_nat "slice" 2);
   ("sort", method of_nat "sort" 1);
   ("splice", method of_nat "splice" 2);
   ("includes", method of_nat "includes" 1);
   ("indexOf", method of_nat "indexOf" 1);
   ("join", method of_nat "join" 1);
   ("keys", method of_nat "keys" 0);
   ("entries", method of_nat "entries" 0);
   ("values", method of_nat "values" 0);
   ("forEach", method of_nat "forEach" 1);
   ("filter", method of_nat "filter" 1);
   ("map", method of_nat "map" 1);
   ("every", method of_nat "every" 1);
   ("some", method of_nat "some" 1);
   ("reduce", method of_nat "reduce" 1);
   ("reduceRight", method of_nat "reduceRight" 1);
   ("toLocaleString", method of_nat "toLocaleString" 0);
   ("toString", method of_nat "toString" 0)].

(** What the prototype of a number, of a boolean, of a string, of a symbol
    and of a function puts in front of [Object.prototype].  The tables of
    the numbers and of the booleans are whole; those of the strings, the
    symbols and the functions have the three members every one of these
    prototypes redefines, and not the further methods, which the examples
    do not read. *)
Definition number_methods {number : Type} (of_nat : nat -> number)
  : list (string * jsvalue number) :=
  [("constructor", method of_nat "Number" 1);
   ("toExponential", method of_nat "toExponential" 1);
   ("toFixed", method of_nat "toFixed" 1);
   ("toPrecision", method of_nat "toPrecision" 1);
   ("toString", method of_nat "toString" 1);
   ("valueOf", method of_nat "valueOf" 0);
   ("toLocaleString", method of_nat "toLocaleString" 0)].

Definition boolean_methods {number : Type} (of_nat : nat -> number)
  : list (string * jsvalue number) :=
  [("constructor", method of_nat "Boolean" 1);
   ("toString", method of_nat "toString" 0);
   ("valueOf", method of_nat "valueOf" 0)].

Definition string_methods {number : Type} (of_nat : nat -> number)
  : list (string * jsvalue number) :=
  [("constructor", method of_nat "String" 1);
   ("toString", method of_nat "toString" 0);
   ("valueOf", method of_nat "valueOf" 0)].

Definition symbol_methods {number : Type} (of_nat : nat -> number)
  : list (string * jsvalue number) :=
  [("constructor", method of_nat "Symbol" 0);
   ("toString", method of_nat "toString" 0);
   ("valueOf", method of_nat "valueOf" 0)].

Definition function_methods {number : Type} (of_nat : nat -> number)
  : list (string * jsvalue number) :=
  [("constructor", method of_nat "Function" 1);
   ("apply", method of_nat "apply" 2);
   ("bind", method of_nat "bind" 1);
   ("call", method of_nat "call" 1);
   ("toString", method of_nat "toString" 0)].

(** The members a built-in prototype owns in the hosts of the examples. *)
Definition methods_of {number : Type} (of_nat : nat -> number)
  (prototype : builtin) : list (string * jsvalue number) :=
  match prototype with
  | ObjectPrototype => object_methods of_nat
  | ArrayPrototype => array_methods of_nat
  | FunctionPrototype => function_methods of_nat
  | StringPrototype => string_methods of_nat
  | NumberPrototype => number_methods of_nat
  | BooleanPrototype => boolean_methods of_nat
  | SymbolPrototype => symbol_methods of_nat
  end.

(** The prototype itself, which the getter of [__proto__] answers with:
    [Object.prototype] is an object with no prototype, [Array.prototype] an
    empty array, [Function.prototype] a function, and the others objects
    with their methods. *)
Definition prototype_object {number : Type} (of_nat : nat -> number)
  (prototype : builtin) : jsvalue number :=
  match prototype with
  | ObjectPrototype =>
      VObject (object_methods of_nat ++ [("__proto__", VNull)])%list
  | ArrayPrototype => VArray []
  | FunctionPrototype =>
      VFunction [("length", VNumber (of_nat 0)); ("name", VString "")]
  | StringPrototype | NumberPrototype | BooleanPrototype | SymbolPrototype =>
      VObject (methods_of of_nat prototype)
  end.

(** What the hosts of the examples keep under a key along the chain of a
    built-in prototype: what the prototype owns, and failing that what
    [Object.prototype] owns, where every chain ends. *)
Definition example_member {number : Type} (of_nat : nat -> number)
  (prototype : builtin) (key : string) : option (jsvalue number) :=
  if key =? "__proto__" then Some (prototype_object of_nat prototype)
  else match lookup key (methods_of of_nat prototype) with
       | Some m => Some m
       | None => lookup key (object_methods of_nat)
       end.

(** The code units of a string of the examples, which are ASCII: one for
    each character. *)
Definition ascii_units (s : string) : list string :=
  List.map (fun c => String c "") (list_ascii_of_string s).

(** Whole numbers stand for the numbers of the examples. *)
#[export] Instance Z_numeric : Runtime Z := {|
  number_of_nat := Z.of_nat;
  number_strict_equals := Z.eqb;
  code_units := ascii_units;
  member := example_member Z.of_nat
|}.

(** A primitive with an encoder of its own, which hides the string. *)
Definition Masked : Schema.shape Z :=
  Schema.SPrimitive (fun a => typeof a =? "string") "string"
    (fun _ => Returned (VString "***")).

(** A record with a nested record and a list, all primitives with the
    default encoder. *)
Definition Profile : Schema.shape Z :=
  Schema.SStruct
    [("a", Schema.SStruct
             [("b", Schema.SPrimitive (fun a => typeof a =? "number") "number"
                      Schema.identity)]);
     ("tags", Schema.SList
                (Schema.SPrimitive (fun a => typeof a =? "string") "string"
                   Schema.identity))].

(** Operations for the examples of task.ts: the world is the log of what
    ran, and a thrown value is a string. *)
Definition logged {A : Type} (entry : string) (result : A)
  : list string -> list string * A :=
  fun w => ((w ++ [entry])%list, result).

Definition fetch_ok : unit -> Task.Call (list string) string (Task.settlement string Z) :=
  fun _ => logged "fetch" (Task.Return (Task.Fulfilled 10%Z)).

Definition fetch_throws : unit -> Task.Call (list string) string (Task.settlement string Z) :=
  fun _ => logged "fetch" (Task.Throw "offline").

Definition fetch_rejects : unit -> Task.Call (list string) string (Task.settlement string Z) :=
  fun _ => logged "fetch" (Task.Return (Task.Rejected "404")).

Definition save : Z -> Task.ReaderTaskEither (list string) string unit string Z :=
  fun n => Task.from (fun _ => logged "save" (Task.Return (Task.Fulfilled (n + 1)%Z))).

Definition parse_throws : Z -> Task.Call (list string) string Z :=
  fun _ => logged "parse" (Task.Throw "bad json").

(* ===================================================================== *)
(** * Further vocabulary: composing calls, built schemas, the user store *)
(* ===================================================================== *)

(** A function that neither throws nor touches the world, such as the
    [decode] of a schema, called as a plain function. *)
Definition total {World Exception A B : Type} (g : A -> B)
  : A -> Task.Call World Exception B :=
  fun a w => (w, Task.Return (g a)).

(** [(r) => g(f(r))] for two plain functions: [g] runs on what [f]
    returned, in the world [f] left; a throw of [f] ends the call. *)
Definition then_call {World Exception R B C : Type}
  (f : R -> Task.Call World Exception B) (g : B -> Task.Call World Exception C)
  : R -> Task.Call World Exception C :=
  fun r w =>
    match f r w with
    | (w', Task.Return b) => g b w'
    | (w', Task.Throw e) => (w', Task.Throw e)
    end.

(** The schemas the five constructors of validation.ts build, from
    schemas they built. *)
Inductive constructed {number : Type} `{Runtime number} `{Host number}
  : Schema.Schema number -> Prop :=
| constructed_primitive guard typeName encoder :
    constructed (Schema.makePrimitive guard typeName encoder)
| constructed_literal literal :
    constructed (Schema.Literal literal)
| constructed_struct validators :
    Forall (fun field => constructed (snd field)) validators ->
    constructed (Schema.Struct validators)
| constructed_list itemSchema :
    constructed itemSchema -> constructed (Schema.List itemSchema)
| constructed_transform schema transformer reverseTransformer :
    constructed schema ->
    constructed (Schema.transform schema transformer reverseTransformer).

(** [Todo] of examples/effectful-async-computations.ts. *)
Definition Todo {number : Type} `{Runtime number} : Schema.Schema number :=
  Schema.Struct
    [("userId", Schema.Number);
     ("id", Schema.Number);
     ("title", Schema.String);
     ("completed", Schema.Boolean)].

(** The user store of index.ts: [db] is a [Map] from ids to users, as
    the list of its entries. *)
Section UserStore.
Context {number : Type}.

(** [db.has(id)] *)
Definition Map_has (db : list (string * jsvalue number)) (id : string) : bool :=
  match lookup id db with Datatypes.Some _ => true | Datatypes.None => false end.

(** [db.get(id)] *)
Definition Map_get (db : list (string * jsvalue number)) (id : string)
  : jsvalue number :=
  match lookup id db with Datatypes.Some user => user | Datatypes.None => VUndefined end.

(** [User.get(id)], on the store as it stands. *)
Definition User_get (db : list (string * jsvalue number)) (id : string)
  : Option.Option number :=
  if negb (Map_has db id) then Option.None
  else Option.Some (Map_get db id).

End UserStore.

(** Numbers with a [NaN]: [None] is [NaN], which [===] never finds equal
    to anything. *)
#[export] Instance NaN_numeric : Runtime (option Z) := {|
  number_of_nat := fun n => Datatypes.Some (Z.of_nat n);
  number_strict_equals := fun a b =>
    match a, b with
    | Datatypes.Some x, Datatypes.Some y => Z.eqb x y
    | _, _ => false
    end;
  code_units := ascii_units;
  member := example_member (fun n => Datatypes.Some (Z.of_nat n))
|}.

(** What [JSON.stringify] has no text for: [undefined], functions and
    symbols. *)
Definition omitted {number : Type} (v : jsvalue number) : bool :=
  match v with
  | VUndefined | VFunction _ | VSymbol _ => true
  | _ => false
  end.

(** [JSON.stringify] for the examples, on data whose strings hold no
    character that JSON escapes: a value it has no text for gives
    [undefined] alone, which the template renders as such, [null] inside an
    array, and no property inside an object; [NaN] is [null]. *)
Fixpoint stringify (v : jsvalue (option Z)) : string :=
  match v with
  | VUndefined => "undefined"
  | VNull => "null"
  | VBoolean true => "true"
  | VBoolean false => "false"
  | VNumber Datatypes.None => "null"
  | VNumber (Datatypes.Some z) => NilZero.string_of_int (Z.to_int z)
  | VString s => String (ascii_of_nat 34) (s ++ String (ascii_of_nat 34) "")
  | VArray items =>
      "[" ++ String.concat ","
               (List.map (fun item =>
                            if omitted item then "null" else stringify item)
                  items)
      ++ "]"
  | VObject props =>
      "{" ++ String.concat ","
               (flat_map (fun p =>
                            if omitted (snd p) then []
                            else [String (ascii_of_nat 34)
                                    (fst p ++ String (ascii_of_nat 34) "")
                                  ++ ":" ++ stringify (snd p)])
                  props)
      ++ "}"
  | VFunction _ => "undefined"
  | VSymbol _ => "undefined"
  end.

(** The host of the examples: their data never shares an object with a
    schema's literal. *)
#[export] Instance example_host : Host (option Z) := {|
  same_reference := fun _ _ => false;
  JSON_stringify := stringify
|}.

(* ===================================================================== *)
(** * Properties of option.ts *)
(* ===================================================================== *)

Section OptionProperties.
Context {number : Type}.
Implicit Types (v : jsvalue number) (o : Option.Option number).

Lemma fromNullable_non_nullable v : Option.non_nullable (Option.fromNullable v).
Proof.
  unfold Option.fromNullable.
  destruct (is_nullish v) eqn:Hv; simpl; [exact I | exact Hv].
Qed.

Lemma bimap_non_nullable o fn : Option.non_nullable (Option.bimap o fn).
Proof.
  destruct o as [value|]; simpl; [|exact I].
  destruct (is_nullish (fn value)) eqn:Hb; simpl; [exact I | exact Hb].
Qed.

(** C8, as the code has it: [fromNullable] gives [Some v] for every [v]
    that is neither [null] nor [undefined] and [None] for those two; [map]
    on [Some v] gives [None] when the function returns [null] or
    [undefined] and [Some] of the result otherwise; so neither of them ever
    builds a [Some] around [null] or [undefined], whatever they are given. *)
Theorem option_never_built_around_nullish v (fn : jsvalue number -> jsvalue number) o :
  (is_nullish v = false -> Option.fromNullable v = Option.Some v)
  /\ Option.fromNullable (@VNull number) = Option.None
  /\ Option.fromNullable (@VUndefined number) = Option.None
  /\ Option.non_nullable (Option.fromNullable v)
  /\ (is_nullish (fn v) = true -> Option.map fn (Option.Some v) = Option.None)
  /\ (is_nullish (fn v) = false ->
      Option.map fn (Option.Some v) = Option.Some (fn v))
  /\ Option.non_nullable (Option.map fn o).
Proof.
  repeat apply conj.
  - intros Hv. unfold Option.fromNullable. now rewrite Hv.
  - reflexivity.
  - reflexivity.
  - apply fromNullable_non_nullable.
  - intros Hb. unfold Option.map, Option.bimap. now rewrite Hb.
  - intros Hb. unfold Option.map, Option.bimap. now rewrite Hb.
  - apply bimap_non_nullable.
Qed.

End OptionProperties.

(** The [Some] constructor stores what it is given: around [null] it is
    still a [Some], not [None]. *)
Lemma Some_of_null_is_not_None :
  Option.isSome (Option.Some (@VNull Z)) = true
  /\ Option.isNone (Option.Some (@VNull Z)) = false
  /\ Option.Some (@VNull Z) <> Option.None
  /\ ~ Option.non_nullable (Option.Some (@VNull Z)).
Proof.
  repeat apply conj; try reflexivity; simpl; discriminate.
Qed.

(** [fromNullable("id")] is [Some("id")], and mapping it with a function
    that returns [null] gives [None]. *)
Lemma option_never_built_around_nullish_example :
  Option.fromNullable (VString "id" : jsvalue Z) = Option.Some (VString "id")
  /\ Option.map (fun _ => VNull) (Option.Some (VString "id" : jsvalue Z))
     = Option.None.
Proof.
  pose proof (option_never_built_around_nullish
                (VString "id" : jsvalue Z) (fun _ => VNull)
                Option.None) as (Hfrom & _ & _ & _ & Hmap & _).
  split; [apply Hfrom | apply Hmap]; reflexivity.
Defined.

(* ===================================================================== *)
(** * Properties of task.ts *)
(* ===================================================================== *)

Section TaskProperties.
Context {World Exception : Type}.
Let Call := Task.Call World Exception.
Let settlement := Task.settlement Exception.
Let ReaderTaskEither := Task.ReaderTaskEither World Exception.

Lemma from_fulfilled {E R : Type} (f : E -> Call (settlement R)) runtime w w' v :
  f runtime w = (w', Task.Return (Task.Fulfilled v)) ->
  Task.fork runtime (Task.from f) w = (w', Task.Fulfilled (Either.Right v)).
Proof.
  intros Hf.
  unfold Task.fork, Task.from, Task.try_catch, Task.await, Task.call_async.
  now rewrite Hf.
Qed.

Lemma from_catches_throw {E R : Type} (f : E -> Call (settlement R)) runtime w w' e :
  f runtime w = (w', Task.Throw e) ->
  Task.fork runtime (Task.from f) w = (w', Task.Fulfilled (Either.Left e)).
Proof.
  intros Hf.
  unfold Task.fork, Task.from, Task.try_catch, Task.await, Task.call_async.
  now rewrite Hf.
Qed.

Lemma from_catches_rejection {E R : Type} (f : E -> Call (settlement R)) runtime w w' e :
  f runtime w = (w', Task.Return (Task.Rejected e)) ->
  Task.fork runtime (Task.from f) w = (w', Task.Fulfilled (Either.Left e)).
Proof.
  intros Hf.
  unfold Task.fork, Task.from, Task.try_catch, Task.await, Task.call_async.
  now rewrite Hf.
Qed.

Lemma from_never_rejects {E R : Type} (f : E -> Call (settlement R)) runtime w e :
  snd (Task.fork runtime (Task.from f) w) <> Task.Rejected e.
Proof.
  unfold Task.fork, Task.from, Task.try_catch, Task.await, Task.call_async.
  destruct (f runtime w) as [w' [[v| e' |]|e']]; simpl; discriminate.
Qed.

(** C6: forking an effect made by [from] gives [Right value] when the
    wrapped operation completes with [value], and [Left e] when it throws
    [e] before handing back a promise or its promise rejects with [e]; the
    forked promise itself is never rejected. *)
Theorem from_is_the_error_boundary {E R : Type}
  (f : E -> Call (settlement R)) (runtime : E) (w : World) :
  (forall w' v, f runtime w = (w', Task.Return (Task.Fulfilled v)) ->
     Task.fork runtime (Task.from f) w = (w', Task.Fulfilled (Either.Right v)))
  /\ (forall w' e, f runtime w = (w', Task.Throw e) ->
     Task.fork runtime (Task.from f) w = (w', Task.Fulfilled (Either.Left e)))
  /\ (forall w' e, f runtime w = (w', Task.Return (Task.Rejected e)) ->
     Task.fork runtime (Task.from f) w = (w', Task.Fulfilled (Either.Left e)))
  /\ (forall e, snd (Task.fork runtime (Task.from f) w) <> Task.Rejected e).
Proof.
  repeat apply conj; intros.
  - now apply from_fulfilled.
  - now apply from_catches_throw.
  - now apply from_catches_rejection.
  - apply from_never_rejects.
Qed.

(** C7: in [flatMap f first], when [first] ends in [Left l] the composed
    effect ends in that [Left l] in the world [first] left, whatever [f]
    is: [f] is not called.  When [first] ends in [Right r], the effect
    [f r] starts in the world [first] left when it settled.  While [first]
    is not settled, or when it is rejected, nothing of [f] runs either. *)
Theorem flatMap_runs_in_sequence {E L R B : Type}
  (f : R -> ReaderTaskEither E L B) (first : ReaderTaskEither E L R)
  (runtime : E) (w : World) :
  (forall w1 l, first runtime w = (w1, Task.Fulfilled (Either.Left l)) ->
     forall g : R -> ReaderTaskEither E L B,
       Task.fork runtime (Task.flatMap g first) w
       = (w1, Task.Fulfilled (Either.Left l)))
  /\ (forall w1 r, first runtime w = (w1, Task.Fulfilled (Either.Right r)) ->
     Task.fork runtime (Task.flatMap f first) w = f r runtime w1)
  /\ (forall w1, first runtime w = (w1, Task.Pending) ->
     forall g : R -> ReaderTaskEither E L B,
       Task.fork runtime (Task.flatMap g first) w = (w1, Task.Pending))
  /\ (forall w1 e, first runtime w = (w1, Task.Rejected e) ->
     forall g : R -> ReaderTaskEither E L B,
       Task.fork runtime (Task.flatMap g first) w = (w1, Task.Rejected e)).
Proof.
  unfold Task.fork, Task.flatMap, Task.await.
  repeat apply conj; intros * Hfirst; intros; rewrite Hfirst; reflexivity.
Qed.

(** C9: when the effect under [map f] succeeds with [r] and [f r] throws
    [e], the forked promise is rejected with [e]; the same throw inside an
    operation wrapped by [from] is caught and comes out as [Left e]. *)
Theorem map_lets_a_throw_escape {E L R B : Type}
  (f : R -> Call B) (effect : ReaderTaskEither E L R)
  (runtime : E) (w w1 w2 : World) (r : R) (e : Exception) :
  effect runtime w = (w1, Task.Fulfilled (Either.Right r)) ->
  f r w1 = (w2, Task.Throw e) ->
  Task.fork runtime (Task.map f effect) w = (w2, Task.Rejected e)
  /\ (forall (g : E -> Call (settlement B)),
        g runtime w = (w2, Task.Throw e) ->
        Task.fork runtime (Task.from g) w = (w2, Task.Fulfilled (Either.Left e))).
Proof.
  intros Heffect Hf. split.
  - unfold Task.fork, Task.map, Task.await, Task.call.
    rewrite Heffect, Hf. reflexivity.
  - intros g Hg. now apply from_catches_throw.
Qed.

End TaskProperties.

(** An operation that fulfils, one that throws and one whose promise
    rejects, each wrapped by [from] and forked in an empty log. *)
Lemma from_is_the_error_boundary_example :
  Task.fork tt (Task.from fetch_ok) []
    = (["fetch"], Task.Fulfilled (Either.Right 10%Z))
  /\ Task.fork tt (Task.from fetch_throws) []
    = (["fetch"], Task.Fulfilled (Either.Left "offline"))
  /\ Task.fork tt (Task.from fetch_rejects) []
    = (["fetch"], Task.Fulfilled (Either.Left "404")).
Proof.
  split; [|split].
  - apply (proj1 (from_is_the_error_boundary fetch_ok tt [])). reflexivity.
  - apply (proj1 (proj2 (from_is_the_error_boundary fetch_throws tt []))).
    reflexivity.
  - apply (proj1 (proj2 (proj2 (from_is_the_error_boundary fetch_rejects tt [])))).
    reflexivity.
Defined.

(** After a failing fetch, ["save"] is never logged; after a fetch that
    succeeds with 10, [save] runs next and is given the 10. *)
Lemma flatMap_runs_in_sequence_example :
  Task.fork tt (Task.flatMap save (Task.from fetch_throws)) []
    = (["fetch"], Task.Fulfilled (Either.Left "offline"))
  /\ Task.fork tt (Task.flatMap save (Task.from fetch_ok)) []
    = (["fetch"; "save"], Task.Fulfilled (Either.Right 11%Z)).
Proof.
  split.
  - apply (proj1 (flatMap_runs_in_sequence save (Task.from fetch_throws) tt [])).
    reflexivity.
  - rewrite (proj1 (proj2 (flatMap_runs_in_sequence save (Task.from fetch_ok) tt []))
               ["fetch"] 10%Z eq_refl).
    reflexivity.
Defined.

(** A parser that throws, mapped over a fetch that succeeds: the forked
    promise is rejected with what the parser threw. *)
Lemma map_lets_a_throw_escape_example :
  Task.fork tt (Task.map parse_throws (Task.from fetch_ok)) []
    = (["fetch"; "parse"], Task.Rejected "bad json").
Proof.
  apply (proj1 (map_lets_a_throw_escape (L := string) parse_throws
                  (Task.from fetch_ok) tt [] ["fetch"] ["fetch"; "parse"]
                  10%Z "bad json" eq_refl eq_refl)).
Defined.

(* ===================================================================== *)
(** * Properties of validation.ts: [Struct] and [List] decoding *)
(* ===================================================================== *)

Section DecodeProperties.
Context {number : Type} `{Runtime number}.
Implicit Types (data : jsvalue number) (key : string).
Implicit Types (validators : list (string * Schema.Schema number)).
Implicit Types (errors : list (Schema.ValidationError number)).

Lemma decode_fields_spec validators data result errors :
  Schema.decode_fields validators data result errors
  = (Schema.assign_all result (flat_map (Schema.field_decoded data) validators),
     (errors ++ flat_map (Schema.field_errors data) validators)%list).
Proof.
  revert result errors.
  induction validators as [|[key validator] rest IH]; intros result errors.
  - simpl. now rewrite app_nil_r.
  - cbn [Schema.decode_fields flat_map].
    unfold Schema.field_decoded at 1, Schema.field_errors at 1. cbn [fst snd].
    destruct (is_undefined (get_property data key)).
    + rewrite IH. cbn [app]. now rewrite <- app_assoc.
    + destruct (Schema.decode validator (get_property data key)) as [nested|r].
      * rewrite IH. cbn [app]. now rewrite <- app_assoc.
      * rewrite IH. reflexivity.
Qed.

Lemma is_object_guard data :
  negb (typeof data =? "object") || is_null data = negb (Schema.is_object data).
Proof.
  unfold Schema.is_object.
  destruct (typeof data =? "object"), (is_null data); reflexivity.
Qed.

Lemma is_object_cases data :
  Schema.is_object data = true ->
  (exists items, data = VArray items) \/ (exists props, data = VObject props).
Proof.
  destruct data; try discriminate; eauto.
Qed.

(** On an object, [Struct]'s [decode] is decided by the errors of the
    declared fields taken together. *)
Lemma Struct_decode_object validators data :
  Schema.is_object data = true ->
  Schema.decode (Schema.Struct validators) data
  = match flat_map (Schema.field_errors data) validators with
    | [] => Either.Right
              (VObject (Schema.assign_all [] (flat_map (Schema.field_decoded data) validators)))
    | errors => Either.Left errors
    end.
Proof.
  intros Hobj. cbn [Schema.Struct Schema.decode].
  rewrite is_object_guard, Hobj. cbn [negb].
  rewrite decode_fields_spec. cbn [app].
  destruct (flat_map (Schema.field_errors data) validators); reflexivity.
Qed.

Lemma Struct_decode_not_object validators data :
  Schema.is_object data = false ->
  Schema.decode (Schema.Struct validators) data
  = Either.Left [Schema.not_an_object data].
Proof.
  intros Hobj. cbn [Schema.Struct Schema.decode].
  now rewrite is_object_guard, Hobj.
Qed.


Lemma under_with_key key key' (err : Schema.ValidationError number) :
  Schema.under key (Schema.with_key key' err) = (key' =? key).
Proof. reflexivity. Qed.







(** ** Paths of nested errors *)

Lemma decode_items_spec (itemSchema : Schema.Schema number) items i results errors :
  Schema.decode_items itemSchema items i results errors
  = ((results ++ flat_map (Schema.item_decoded itemSchema) items)%list,
     (errors ++ Schema.items_errors itemSchema items i)%list).
Proof.
  revert i results errors.
  induction items as [|item rest IH]; intros i results errors.
  - simpl. now rewrite !app_nil_r.
  - cbn [Schema.decode_items Schema.items_errors flat_map].
    unfold Schema.item_decoded at 1.
    destruct (Schema.decode itemSchema item) as [nested|r]; rewrite IH.
    + cbn [app]. now rewrite <- app_assoc.
    + cbn [app]. now rewrite <- app_assoc.
Qed.

(** On an array, [List]'s [decode] is decided by the errors of the
    elements taken together. *)
Lemma List_decode_array (itemSchema : Schema.Schema number) items :
  Schema.decode (Schema.List itemSchema) (VArray items)
  = match Schema.items_errors itemSchema items 0 with
    | [] => Either.Right (VArray (flat_map (Schema.item_decoded itemSchema) items))
    | errors => Either.Left errors
    end.
Proof.
  cbn [Schema.List Schema.decode]. rewrite decode_items_spec. cbn [app].
  destruct (Schema.items_errors itemSchema items 0); reflexivity.
Qed.

Lemma items_errors_in (itemSchema : Schema.Schema number) items i n item nested err :
  nth_error items n = Some item ->
  Schema.decode itemSchema item = Either.Left nested ->
  In err nested ->
  In (Schema.with_key (index_string (i + n)) err)
     (Schema.items_errors itemSchema items i).
Proof.
  revert i n. induction items as [|first rest IH]; intros i n Hnth Hdecode Hin.
  - destruct n; discriminate.
  - cbn [Schema.items_errors]. apply in_or_app. destruct n as [|n].
    + left. injection Hnth as ->. rewrite Hdecode, Nat.add_0_r.
      now apply in_map.
    + right. replace (i + S n) with (S i + n) by lia. now apply IH.
Qed.

Lemma field_errors_in validators data key validator nested err :
  In (key, validator) validators ->
  get_property data key <> VUndefined ->
  Schema.decode validator (get_property data key) = Either.Left nested ->
  In err nested ->
  In (Schema.with_key key err) (flat_map (Schema.field_errors data) validators).
Proof.
  intros Hfield Hpresent Hdecode Hin.
  apply in_flat_map. exists (key, validator). split; [assumption|].
  unfold Schema.field_errors. cbn [fst snd].
  destruct (get_property data key); try congruence;
    cbn [is_undefined]; rewrite Hdecode; now apply in_map.
Qed.

(** C2: when the schema of a declared field of a [Struct] fails on the
    field's value, each of its errors comes back from the [Struct] with the
    field name put in front of the path the error already carried, and the
    rest of the error unchanged; when the item schema of a [List] fails on
    the element at index [i], each of its errors comes back from the [List]
    with the index, written as a string, put in front of its path. *)
Theorem nested_error_paths_are_prefixed :
  (forall validators data key validator nested err,
     Schema.is_object data = true ->
     In (key, validator) validators ->
     get_property data key <> VUndefined ->
     Schema.decode validator (get_property data key) = Either.Left nested ->
     In err nested ->
     exists errors err',
       Schema.decode (Schema.Struct validators) data = Either.Left errors
       /\ In err' errors
       /\ Schema.path err' = Some (key :: Schema.path_or_empty err)
       /\ Schema.code err' = Schema.code err
       /\ Schema.message err' = Schema.message err
       /\ Schema.input err' = Schema.input err)
  /\ (forall (itemSchema : Schema.Schema number) items i item nested err,
     nth_error items i = Some item ->
     Schema.decode itemSchema item = Either.Left nested ->
     In err nested ->
     exists errors err',
       Schema.decode (Schema.List itemSchema) (VArray items) = Either.Left errors
       /\ In err' errors
       /\ Schema.path err' = Some (index_string i :: Schema.path_or_empty err)
       /\ Schema.code err' = Schema.code err
       /\ Schema.message err' = Schema.message err
       /\ Schema.input err' = Schema.input err).
Proof.
  split.
  - intros validators data key validator nested err Hobj Hfield Hpresent Hdecode Hin.
    pose proof (field_errors_in _ _ _ _ _ _ Hfield Hpresent Hdecode Hin) as Hall.
    rewrite (Struct_decode_object _ _ Hobj).
    destruct (flat_map (Schema.field_errors data) validators) as [|e errors];
      [contradiction|].
    exists (e :: errors), (Schema.with_key key err). repeat apply conj; auto.
  - intros itemSchema items i item nested err Hnth Hdecode Hin.
    pose proof (items_errors_in _ _ 0 _ _ _ _ Hnth Hdecode Hin) as Hall.
    cbn [Nat.add] in Hall.
    rewrite List_decode_array.
    destruct (Schema.items_errors itemSchema items 0) as [|e errors];
      [contradiction|].
    exists (e :: errors), (Schema.with_key (index_string i) err).
    repeat apply conj; auto.
Qed.

(** ** Keys the schema does not declare, and inputs that are no objects *)

Lemma lookup_write_property_other key k props (v : jsvalue number) :
  k <> key -> lookup key (write_property props k v) = lookup key props.
Proof.
  intros Hne. induction props as [|[k' old] rest IH]; cbn [write_property lookup].
  - now apply String.eqb_neq in Hne as ->.
  - destruct (k' =? k) eqn:Hk; cbn [lookup].
    + apply String.eqb_eq in Hk. subst k'.
      now apply String.eqb_neq in Hne as ->.
    + destruct (k' =? key); [reflexivity | exact IH].
Qed.

Lemma lookup_write_property_same key props (v : jsvalue number) :
  lookup key (write_property props key v) = Some v.
Proof.
  induction props as [|[k' old] rest IH]; cbn [write_property lookup].
  - now rewrite String.eqb_refl.
  - destruct (k' =? key) eqn:Hk; cbn [lookup]; now rewrite Hk.
Qed.

Lemma lookup_set_property_other key k props (v : jsvalue number) :
  k <> key -> lookup key (set_property props k v) = lookup key props.
Proof.
  intros Hne. unfold set_property.
  destruct (k =? "__proto__"); [reflexivity|].
  now apply lookup_write_property_other.
Qed.

Lemma lookup_set_property_same key props (v : jsvalue number) :
  key <> "__proto__" -> lookup key (set_property props key v) = Some v.
Proof.
  intros Hne. unfold set_property.
  apply String.eqb_neq in Hne as ->. apply lookup_write_property_same.
Qed.

(** An assignment never makes an own property named [__proto__]. *)
Lemma lookup_set_property_proto k props (v : jsvalue number) :
  lookup "__proto__" (set_property props k v) = lookup "__proto__" props.
Proof.
  unfold set_property. destruct (k =? "__proto__") eqn:Hk; [reflexivity|].
  apply lookup_write_property_other. now apply String.eqb_neq.
Qed.

Lemma lookup_assign_all_other key (decoded result : list (string * jsvalue number)) :
  ~ In key (List.map fst decoded) ->
  lookup key (Schema.assign_all result decoded) = lookup key result.
Proof.
  revert result. induction decoded as [|[k v] rest IH]; intros result Hfresh.
  - reflexivity.
  - cbn [Schema.assign_all fold_left fst snd List.map] in *.
    fold (Schema.assign_all (set_property result k v) rest).
    rewrite IH by (intros Hin; apply Hfresh; now right).
    apply lookup_set_property_other. intros ->. apply Hfresh. now left.
Qed.

Lemma field_decoded_keys validators data key :
  In key (List.map fst (flat_map (Schema.field_decoded data) validators)) ->
  In key (List.map fst validators).
Proof.
  induction validators as [|field rest IH]; [trivial|].
  cbn [flat_map List.map]. rewrite map_app, in_app_iff.
  intros [Hhere|Hrest]; [left | right; now apply IH].
  unfold Schema.field_decoded in Hhere.
  destruct (is_undefined _); [contradiction|].
  destruct (Schema.decode _ _); [contradiction|].
  destruct Hhere as [<-|[]]. reflexivity.
Qed.

Lemma flat_map_agree {A B : Type} (f g : A -> list B) (l : list A) :
  (forall a, In a l -> f a = g a) -> flat_map f l = flat_map g l.
Proof.
  induction l as [|a l IH]; intros Hfg; [reflexivity|].
  cbn [flat_map]. rewrite (Hfg a) by now left.
  rewrite IH; [reflexivity|]. intros b Hb. apply Hfg. now right.
Qed.

Lemma Struct_decode_reads_declared_keys validators data data' :
  Schema.is_object data = true ->
  Schema.is_object data' = true ->
  (forall key, In key (List.map fst validators) ->
     get_property data' key = get_property data key) ->
  Schema.decode (Schema.Struct validators) data'
  = Schema.decode (Schema.Struct validators) data.
Proof.
  intros Hobj Hobj' Hsame.
  rewrite !Struct_decode_object by assumption.
  rewrite (flat_map_agree (Schema.field_errors data') (Schema.field_errors data)).
  - rewrite (flat_map_agree (Schema.field_decoded data') (Schema.field_decoded data));
      [reflexivity|].
    intros field Hfield. unfold Schema.field_decoded.
    now rewrite Hsame by (now apply in_map).
  - intros field Hfield. unfold Schema.field_errors.
    now rewrite Hsame by (now apply in_map).
Qed.

(** C5: on an object, a key the [Struct] does not declare is not copied:
    the decoded object has no property of its own under it.  Nor is it
    reported: two objects that read the same at every declared key decode
    to the same result, errors included, so giving the input a property
    under an undeclared key, or another value for the one it has, changes
    nothing. *)
Theorem Struct_ignores_undeclared_keys validators data :
  Schema.is_object data = true ->
  (forall decoded key,
     Schema.decode (Schema.Struct validators) data = Either.Right decoded ->
     ~ In key (List.map fst validators) ->
     has_own_property decoded key = false)
  /\ (forall data',
     Schema.is_object data' = true ->
     (forall key, In key (List.map fst validators) ->
        get_property data' key = get_property data key) ->
     Schema.decode (Schema.Struct validators) data'
     = Schema.decode (Schema.Struct validators) data)
  /\ (forall props key v,
     data = VObject props ->
     ~ In key (List.map fst validators) ->
     Schema.decode (Schema.Struct validators) (VObject (write_property props key v))
     = Schema.decode (Schema.Struct validators) data).
Proof.
  intros Hobj. split; [|split].
  - intros decoded key Hdecode Hundeclared.
    rewrite (Struct_decode_object _ _ Hobj) in Hdecode.
    destruct (flat_map (Schema.field_errors data) validators); [|discriminate].
    injection Hdecode as <-.
    unfold has_own_property. cbn [own_property].
    rewrite lookup_assign_all_other; [reflexivity|].
    intros Hin. apply Hundeclared. now apply field_decoded_keys with data.
  - intros data' Hobj' Hsame. now apply Struct_decode_reads_declared_keys.
  - intros props key v -> Hundeclared.
    apply Struct_decode_reads_declared_keys; try reflexivity.
    intros k Hk. unfold get_property. cbn [own_property prototype_of].
    rewrite lookup_write_property_other; [reflexivity|].
    intros ->. contradiction.
Qed.








End DecodeProperties.

(* ===================================================================== *)
(** * Properties of validation.ts: [make] *)
(* ===================================================================== *)

Section MakeProperties.
Context {number : Type} `{Runtime number}.

(** [make] of [Struct], [List] and [makePrimitive] throws the formatted
    errors of [decode] and returns what [decode] decoded. *)
Lemma make_reports_decode_errors (data : jsvalue number) :
  (forall validators, Schema.reports (Schema.Struct validators) data)
  /\ (forall itemSchema, Schema.reports (Schema.List itemSchema) data)
  /\ (forall guard typeName encoder,
        Schema.reports (Schema.makePrimitive guard typeName encoder) data).
Proof.
  unfold Schema.reports. repeat apply conj; intros.
  - reflexivity.
  - reflexivity.
  - cbn [Schema.makePrimitive Schema.make Schema.decode].
    destruct (guard data); [reflexivity|].
    unfold Schema.errorsFormatted, Schema.format_error.
    cbn [List.map Schema.path Schema.message String.concat String.eqb].
    reflexivity.
Qed.

(** So does [make] of [Literal]. *)
Lemma Literal_make_reports `{Host number} (literal data : jsvalue number) :
  Schema.reports (Schema.Literal literal) data.
Proof.
  unfold Schema.reports. cbn [Schema.Literal Schema.make Schema.decode].
  destruct (strict_equals data literal); reflexivity.
Qed.

(** [make] of [transform] joins the messages alone. *)
Lemma transform_make_joins_messages (schema : Schema.Schema number)
  transformer reverseTransformer (data : jsvalue number) :
  Schema.make (Schema.transform schema transformer reverseTransformer) data
  = match Schema.decode (Schema.transform schema transformer reverseTransformer) data with
    | Either.Left errors =>
        Thrown ("Validation failed: "
                ++ String.concat ", " (List.map Schema.message errors))
    | Either.Right r => Returned r
    end.
Proof. reflexivity. Qed.

End MakeProperties.

(** C3 at the struct of the specification, [Struct({a: Struct({b: Number})})],
    under a [transform] whose two functions change nothing, on the input
    [{a: {}}]: [decode] fails with one error of path [["a"; "b"]], and
    [make] throws a string that starts with ["Validation failed: "] but
    leaves the path out, where the same struct without the [transform]
    throws the path with the message. *)
Theorem transform_make_leaves_paths_out :
  let struct := Schema.Struct [("a", Schema.Struct [("b", Schema.Number)])] in
  let schema := Schema.transform struct Schema.identity Schema.identity in
  let data : jsvalue Z := VObject [("a", VObject [])] in
  Schema.decode schema data
  = Either.Left [ {| Schema.path := Some ["a"; "b"];
                     Schema.code := "required";
                     Schema.message := "Required field b is missing";
                     Schema.input := VUndefined |} ]
  /\ Schema.make schema data
     = Thrown "Validation failed: Required field b is missing"
  /\ Schema.make struct data
     = Thrown "Validation failed: a.b: Required field b is missing"
  /\ ~ Schema.reports schema data.
Proof.
  repeat apply conj; try reflexivity.
  unfold Schema.reports. vm_compute. discriminate.
Qed.

(* ===================================================================== *)
(** * Properties of validation.ts: encoding what was decoded *)
(* ===================================================================== *)

Section RoundTrip.
Context {number : Type} `{Runtime number}.
Implicit Types (s item : Schema.shape number) (v : jsvalue number).
Implicit Types (fields : list (string * Schema.shape number)).

Lemma shape_induction (P : Schema.shape number -> Prop) :
  (forall guard typeName encoder, P (Schema.SPrimitive guard typeName encoder)) ->
  (forall fields, Forall (fun field => P (snd field)) fields ->
     P (Schema.SStruct fields)) ->
  (forall item, P item -> P (Schema.SList item)) ->
  forall s, P s.
Proof.
  intros Hprimitive Hstruct Hlist.
  refine (fix IH s : P s :=
    match s with
    | Schema.SPrimitive guard typeName encoder => Hprimitive guard typeName encoder
    | Schema.SStruct fields =>
        Hstruct fields
          ((fix each fs : Forall (fun field => P (snd field)) fs :=
              match fs with
              | [] => Forall_nil _
              | field :: rest => Forall_cons field (IH (snd field)) (each rest)
              end) fields)
    | Schema.SList item => Hlist item (IH item)
    end).
Qed.

Lemma agree_struct fields encoded original :
  Schema.agree (Schema.SStruct fields) encoded original
  <-> Forall (fun field =>
                Schema.agree (snd field) (get_property encoded (fst field))
                  (get_property original (fst field))) fields.
Proof.
  cbn [Schema.agree].
  induction fields as [|field rest IH].
  - split; [constructor | trivial].
  - rewrite IH. split.
    + intros [Hfield Hrest]. now constructor.
    + intros Hall. inversion Hall; subst. now split.
Qed.

Lemma ordinary_fields_struct fields :
  Schema.ordinary_fields (Schema.SStruct fields)
  <-> NoDup (List.map fst fields)
      /\ ~ In "__proto__" (List.map fst fields)
      /\ Forall (fun field => Schema.ordinary_fields (snd field)) fields.
Proof.
  cbn [Schema.ordinary_fields]. do 2 apply and_iff_compat_l.
  induction fields as [|field rest IH].
  - split; [constructor | trivial].
  - rewrite IH. split.
    + intros [Hfield Hrest]. now constructor.
    + intros Hall. inversion Hall; subst. now split.
Qed.

Lemma plain_encoders_struct fields :
  Schema.plain_encoders (Schema.SStruct fields)
  <-> Forall (fun field => Schema.plain_encoders (snd field)) fields.
Proof.
  cbn [Schema.plain_encoders].
  induction fields as [|field rest IH].
  - split; [constructor | trivial].
  - rewrite IH. split.
    + intros [Hfield Hrest]. now constructor.
    + intros Hall. inversion Hall; subst. now split.
Qed.

(** A failure of a schema built by the constructors carries an error. *)
Lemma decode_failure_has_an_error s v errors :
  Schema.decode (Schema.schema_of s) v = Either.Left errors -> errors <> [].
Proof.
  destruct s as [guard typeName encoder|fields|item]; cbn [Schema.schema_of].
  - cbn. destruct (guard v); [discriminate|]. intros [= <-]. discriminate.
  - destruct (Schema.is_object v) eqn:Hobj.
    + rewrite (Struct_decode_object _ _ Hobj).
      destruct (flat_map _ _); [discriminate|]. intros [= <-]. discriminate.
    + rewrite (Struct_decode_not_object _ _ Hobj). intros [= <-]. discriminate.
  - destruct v as [| | | | |items|props|props|description]; try (intros [= <-]; discriminate).
    rewrite List_decode_array.
    destruct (Schema.items_errors _ _ _); [discriminate|]. intros [= <-]. discriminate.
Qed.

(** Decoding a value other than [undefined] does not give [undefined]. *)
Lemma decoded_is_defined s v decoded :
  Schema.decode (Schema.schema_of s) v = Either.Right decoded ->
  v <> VUndefined -> decoded <> VUndefined.
Proof.
  destruct s as [guard typeName encoder|fields|item]; cbn [Schema.schema_of].
  - cbn. destruct (guard v); [|discriminate]. now intros [= <-].
  - destruct (Schema.is_object v) eqn:Hobj.
    + rewrite (Struct_decode_object _ _ Hobj).
      destruct (flat_map _ _); [|discriminate]. intros [= <-]. discriminate.
    + now rewrite (Struct_decode_not_object _ _ Hobj).
  - destruct v as [| | | | |items|props|props|description]; try discriminate.
    rewrite List_decode_array.
    destruct (Schema.items_errors _ _ _); [|discriminate]. intros [= <-]. discriminate.
Qed.

(** *** Arrays *)

Lemma items_all_decoded s items i :
  Schema.items_errors (Schema.schema_of s) items i = [] ->
  Forall2 (fun x r => Schema.decode (Schema.schema_of s) x = Either.Right r)
    items (flat_map (Schema.item_decoded (Schema.schema_of s)) items).
Proof.
  revert i. induction items as [|x rest IH]; intros i Herrors; [constructor|].
  cbn [Schema.items_errors flat_map] in *. unfold Schema.item_decoded at 1.
  apply app_eq_nil in Herrors as [Hhere Hrest].
  destruct (Schema.decode (Schema.schema_of s) x) as [nested|r] eqn:Hdecode.
  - apply map_eq_nil in Hhere. subst nested.
    now apply decode_failure_has_an_error in Hdecode.
  - cbn [app]. constructor; [assumption | now apply IH with (S i)].
Qed.

Lemma encode_items_round_trip s items decoded :
  (forall v d, Schema.decode (Schema.schema_of s) v = Either.Right d ->
     exists e, Schema.encode (Schema.schema_of s) d = Returned e
               /\ Schema.agree s e v) ->
  Forall2 (fun x r => Schema.decode (Schema.schema_of s) x = Either.Right r)
    items decoded ->
  exists encoded,
    Schema.encode_items (Schema.schema_of s) decoded = Returned encoded
    /\ Forall2 (Schema.agree s) encoded items.
Proof.
  intros Hitem Hall. induction Hall as [|x r items decoded Hx _ IH].
  - exists []. split; [reflexivity | constructor].
  - destruct (Hitem _ _ Hx) as (e & He & Hagree).
    destruct IH as (encoded & Hencoded & Hagrees).
    exists (e :: encoded). cbn [Schema.encode_items].
    rewrite He, Hencoded. split; [reflexivity | now constructor].
Qed.

(** *** Records *)

Lemma fields_all_decoded fields v :
  flat_map (Schema.field_errors v) (Schema.validators_of fields) = [] ->
  Forall2 (fun field p =>
             fst p = fst field
             /\ get_property v (fst field) <> VUndefined
             /\ Schema.decode (Schema.schema_of (snd field))
                  (get_property v (fst field)) = Either.Right (snd p))
    fields (flat_map (Schema.field_decoded v) (Schema.validators_of fields)).
Proof.
  induction fields as [|field rest IH]; intros Herrors; [constructor|].
  cbn [Schema.validators_of List.map flat_map] in *.
  apply app_eq_nil in Herrors as [Hhere Hrest].
  unfold Schema.field_errors in Hhere. unfold Schema.field_decoded at 1.
  cbn [fst snd] in *.
  destruct (is_undefined (get_property v (fst field))) eqn:Hdefined;
    [discriminate|].
  destruct (Schema.decode (Schema.schema_of (snd field)) _) as [nested|r] eqn:Hdecode.
  - apply map_eq_nil in Hhere. subst nested.
    now apply decode_failure_has_an_error in Hdecode.
  - cbn [app]. constructor; [|now apply IH].
    repeat apply conj; [reflexivity | | exact Hdecode].
    intros Hundefined. now rewrite Hundefined in Hdefined.
Qed.

Lemma lookup_assign_all_in (decoded result : list (string * jsvalue number)) p :
  NoDup (List.map fst decoded) ->
  ~ In "__proto__" (List.map fst decoded) ->
  In p decoded ->
  lookup (fst p) (Schema.assign_all result decoded) = Some (snd p).
Proof.
  revert result.
  induction decoded as [|[k r] rest IH]; intros result Hnodup Hordinary Hin;
    [contradiction|].
  cbn [List.map fst] in Hnodup, Hordinary.
  apply NoDup_cons_iff in Hnodup as [Hfresh Hnodup].
  cbn [Schema.assign_all fold_left fst snd].
  fold (Schema.assign_all (set_property result k r) rest).
  destruct Hin as [<-|Hin].
  - cbn [fst snd]. rewrite lookup_assign_all_other by assumption.
    apply lookup_set_property_same. intros ->. apply Hordinary. now left.
  - apply IH; try assumption. intros Hrest. apply Hordinary. now right.
Qed.

Lemma encode_fields_spec fields (encoded result acc : list (string * jsvalue number)) :
  Forall2 (fun field q =>
             fst q = fst field
             /\ exists r, lookup (fst field) result = Some r
                          /\ r <> VUndefined
                          /\ Schema.encode (Schema.schema_of (snd field)) r
                             = Returned (snd q))
    fields encoded ->
  Schema.encode_fields (Schema.validators_of fields) (VObject result) acc
  = Returned (Schema.assign_all acc encoded).
Proof.
  intros Hall. revert acc.
  induction Hall as [|field q fields encoded (Hkey & r & Hlookup & Hdefined & Hencode) _ IH];
    intros acc; [reflexivity|].
  cbn [Schema.validators_of List.map Schema.encode_fields].
  unfold has_own_property, get_property. cbn [own_property].
  rewrite Hlookup.
  assert (is_undefined r = false) as ->
    by (destruct r; try reflexivity; now contradiction Hdefined).
  cbn [negb]. rewrite Hencode. rewrite IH.
  destruct q as [k e]. cbn [fst snd] in *. now subst k.
Qed.

Lemma same_keys {A B : Type} (Q : string * A -> string * B -> Prop) xs ys :
  Forall2 (fun x y => fst y = fst x /\ Q x y) xs ys ->
  List.map fst ys = List.map fst xs.
Proof.
  induction 1 as [|x y xs ys [Hkey _] _ IH]; [reflexivity|].
  cbn [List.map]. now rewrite Hkey, IH.
Qed.

Lemma paired {A B : Type} (Q : A -> B -> Prop) xs ys :
  Forall2 Q xs ys -> Forall (fun x => exists y, In y ys /\ Q x y) xs.
Proof.
  induction 1 as [|x y xs ys Hxy _ IH]; constructor.
  - exists y. split; [now left | assumption].
  - apply (Forall_impl _ (P := fun x => exists y, In y ys /\ Q x y)); [|exact IH].
    intros a (b & Hin & Hab). exists b. split; [now right | assumption].
Qed.

Lemma encode_decoded_fields fields v (decoded result : list (string * jsvalue number)) :
  Forall (fun field => Schema.round_trips (snd field)) fields ->
  Forall (fun field => Schema.ordinary_fields (snd field)) fields ->
  Forall (fun field => Schema.plain_encoders (snd field)) fields ->
  (forall p, In p decoded -> lookup (fst p) result = Some (snd p)) ->
  Forall2 (fun field p =>
             fst p = fst field
             /\ get_property v (fst field) <> VUndefined
             /\ Schema.decode (Schema.schema_of (snd field))
                  (get_property v (fst field)) = Either.Right (snd p))
    fields decoded ->
  exists encoded,
    Forall2 (fun field q =>
               fst q = fst field
               /\ (exists r, lookup (fst field) result = Some r
                             /\ r <> VUndefined
                             /\ Schema.encode (Schema.schema_of (snd field)) r
                                = Returned (snd q))
               /\ Schema.agree (snd field) (snd q) (get_property v (fst field)))
      fields encoded.
Proof.
  intros Htrips Hdistinct Hplain Hlookup Hdecoded.
  induction Hdecoded as [|field p fields decoded (Hkey & Hdefined & Hdecode) _ IH].
  - exists []. constructor.
  - inversion Htrips as [|? ? Htrip Htrips']; subst.
    inversion Hdistinct as [|? ? Hd Hdistinct']; subst.
    inversion Hplain as [|? ? Hp Hplain']; subst.
    destruct (Htrip Hd Hp _ _ Hdecode) as (e & He & Hagree).
    destruct IH as (encoded & Hencoded); try assumption.
    { intros p' Hin. apply Hlookup. now right. }
    exists ((fst field, e) :: encoded). constructor; [|assumption].
    cbn [fst snd]. repeat apply conj; try reflexivity; [|assumption].
    exists (snd p). repeat apply conj.
    + rewrite <- Hkey. apply Hlookup. now left.
    + now apply decoded_is_defined in Hdecode.
    + assumption.
Qed.

Lemma struct_round_trips fields :
  Forall (fun field => Schema.round_trips (snd field)) fields ->
  Schema.round_trips (Schema.SStruct fields).
Proof.
  intros Htrips Hdistinct Hplain v decoded Hdecode.
  apply ordinary_fields_struct in Hdistinct as (Hnodup & Hordinary & Hdistinct).
  apply plain_encoders_struct in Hplain.
  change (Schema.schema_of (Schema.SStruct fields))
    with (Schema.Struct (Schema.validators_of fields)) in *.
  destruct (Schema.is_object v) eqn:Hobj;
    [|now rewrite (Struct_decode_not_object _ _ Hobj) in Hdecode].
  rewrite (Struct_decode_object _ _ Hobj) in Hdecode.
  destruct (flat_map (Schema.field_errors v) _) eqn:Herrors; [|discriminate].
  injection Hdecode as <-.
  pose proof (fields_all_decoded _ _ Herrors) as Hdecoded.
  set (ds := flat_map (Schema.field_decoded v) (Schema.validators_of fields)) in *.
  assert (NoDup (List.map fst ds)) as Hnodup_ds.
  { now rewrite (same_keys _ _ _ Hdecoded). }
  assert (~ In "__proto__" (List.map fst ds)) as Hordinary_ds.
  { now rewrite (same_keys _ _ _ Hdecoded). }
  destruct (encode_decoded_fields fields v ds (Schema.assign_all [] ds))
    as (encoded & Hencoded); try assumption.
  { intros p Hin. now apply lookup_assign_all_in. }
  exists (VObject (Schema.assign_all [] encoded)). split.
  - cbn [Schema.Struct Schema.encode].
    rewrite (encode_fields_spec fields encoded); [reflexivity|].
    apply (Forall2_impl _ (R1 := _)) with (2 := Hencoded).
    intros field q (Hkey & Hr & _). now split.
  - apply agree_struct.
    assert (NoDup (List.map fst encoded)) as Hnodup_es.
    { now rewrite (same_keys _ _ _ Hencoded). }
    assert (~ In "__proto__" (List.map fst encoded)) as Hordinary_es.
    { now rewrite (same_keys _ _ _ Hencoded). }
    apply paired in Hencoded.
    apply (Forall_impl _ (P := _)) with (2 := Hencoded).
    intros field (q & Hin & Hkey & _ & Hagree).
    replace (get_property (VObject (Schema.assign_all [] encoded)) (fst field))
      with (snd q); [assumption|].
    unfold get_property. cbn [own_property]. rewrite <- Hkey.
    now rewrite (lookup_assign_all_in _ _ _ Hnodup_es Hordinary_es Hin).
Qed.

Lemma list_round_trips item : Schema.round_trips item -> Schema.round_trips (Schema.SList item).
Proof.
  intros Htrip Hdistinct Hplain v decoded Hdecode.
  cbn [Schema.ordinary_fields Schema.plain_encoders Schema.schema_of] in *.
  destruct v as [| | | | |items|props|props|description]; try discriminate.
  rewrite List_decode_array in Hdecode.
  destruct (Schema.items_errors _ _ _) eqn:Herrors; [|discriminate].
  injection Hdecode as <-.
  apply items_all_decoded in Herrors.
  destruct (encode_items_round_trip item _ _ (Htrip Hdistinct Hplain) Herrors)
    as (encoded & Hencoded & Hagree).
  exists (VArray encoded). cbn [Schema.List Schema.encode].
  rewrite Hencoded. split; [reflexivity | exact Hagree].
Qed.

(** C4, as the code has it: for a schema built from [makePrimitive],
    [Struct] and [List] alone, whose primitives' encoders hand back what
    their guards accept (the default encoder does), and whose records name
    each field once and none of them [__proto__], every value [v] that
    [decode] accepts is encoded back, from what [decode] returned, to a
    value that agrees with [v] on the declared fields. *)
Theorem encode_after_decode_agrees s v decoded :
  Schema.ordinary_fields s ->
  Schema.plain_encoders s ->
  Schema.decode (Schema.schema_of s) v = Either.Right decoded ->
  exists encoded,
    Schema.encode (Schema.schema_of s) decoded = Returned encoded
    /\ Schema.agree s encoded v.
Proof.
  intros Hdistinct Hplain Hdecode.
  assert (Schema.round_trips s) as Htrips; [|now apply Htrips].
  clear. induction s as [guard typeName encoder|fields IH|item IH] using shape_induction.
  - intros _ Hplain v decoded Hdecode. cbn in Hdecode, Hplain.
    destruct (guard v) eqn:Hguard; [|discriminate].
    injection Hdecode as <-. exists v. split; [|reflexivity].
    now apply Hplain.
  - now apply struct_round_trips.
  - now apply list_round_trips.
Qed.

End RoundTrip.

(* ===================================================================== *)
(** * The examples of the specification, run *)
(* ===================================================================== *)


(** [Struct({a: Struct({b: Number})}).decode({a: {b: "x"}})] gives one
    error with path [["a"; "b"]], and [List(Number).decode([1, "x", 3])]
    one error with path [["1"]]. *)
Lemma nested_error_paths_are_prefixed_example :
  (exists errors err',
     Schema.decode (Schema.Struct [("a", Schema.Struct [("b", Schema.Number)])])
       (VObject [("a", VObject [("b", VString "x")])] : jsvalue Z)
     = Either.Left errors
     /\ In err' errors
     /\ Schema.path err' = Some ["a"; "b"])
  /\ Schema.decode (Schema.Struct [("a", Schema.Struct [("b", Schema.Number)])])
       (VObject [("a", VObject [("b", VString "x")])] : jsvalue Z)
     = Either.Left
         [ {| Schema.path := Some ["a"; "b"]; Schema.code := "invalid_type";
              Schema.message := "Expected number, received string";
              Schema.input := VString "x" |} ]
  /\ (exists errors err',
     Schema.decode (Schema.List Schema.Number)
       (VArray [VNumber 1%Z; VString "x"; VNumber 3%Z])
     = Either.Left errors
     /\ In err' errors
     /\ Schema.path err' = Some ["1"])
  /\ Schema.decode (Schema.List Schema.Number)
       (VArray [VNumber 1%Z; VString "x"; VNumber 3%Z])
     = Either.Left
         [ {| Schema.path := Some ["1"]; Schema.code := "invalid_type";
              Schema.message := "Expected number, received string";
              Schema.input := VString "x" |} ].
Proof.
  destruct (@nested_error_paths_are_prefixed Z _) as [Hstruct Hlist].
  repeat apply conj; try reflexivity.
  - destruct (Hstruct
                [("a", Schema.Struct [("b", Schema.Number)])]
                (VObject [("a", VObject [("b", VString "x")])])
                "a" (Schema.Struct [("b", Schema.Number)])
                [ {| Schema.path := Some ["b"]; Schema.code := "invalid_type";
                     Schema.message := "Expected number, received string";
                     Schema.input := VString "x" |} ]
                {| Schema.path := Some ["b"]; Schema.code := "invalid_type";
                   Schema.message := "Expected number, received string";
                   Schema.input := VString "x" |})
      as (errors & err' & Hdecode & Hin & Hpath & _).
    + reflexivity.
    + now left.
    + discriminate.
    + reflexivity.
    + now left.
    + exists errors, err'. auto.
  - destruct (Hlist Schema.Number
                [VNumber 1%Z; VString "x"; VNumber 3%Z] 1 (VString "x")
                [ {| Schema.path := None; Schema.code := "invalid_type";
                     Schema.message := "Expected number, received string";
                     Schema.input := VString "x" |} ]
                {| Schema.path := None; Schema.code := "invalid_type";
                   Schema.message := "Expected number, received string";
                   Schema.input := VString "x" |})
      as (errors & err' & Hdecode & Hin & Hpath & _).
    + reflexivity.
    + reflexivity.
    + now left.
    + exists errors, err'. auto.
Defined.

(** [Struct({a: String}).decode({a: "x", z: 1})] succeeds, and the decoded
    value has no [z]. *)
Lemma Struct_ignores_undeclared_keys_example :
  Schema.decode (Schema.Struct [("a", Schema.String)])
    (VObject [("a", VString "x"); ("z", VNumber 1%Z)])
  = Either.Right (VObject [("a", VString "x")])
  /\ has_own_property (VObject [("a", VString "x")] : jsvalue Z) "z" = false.
Proof.
  pose proof (Struct_ignores_undeclared_keys
                [("a", Schema.String)]
                (VObject [("a", VString "x")] : jsvalue Z) eq_refl)
    as (Hcopied & _ & Hreported).
  split.
  - apply (Hreported [("a", VString "x")] "z" (VNumber 1%Z) eq_refl).
    simpl. intuition discriminate.
  - apply (Hcopied (VObject [("a", VString "x")]) "z" eq_refl).
    simpl. intuition discriminate.
Defined.


(** A key the array does not own but inherits is not missing:
    [Struct({map: String}).decode([])] reads the method [map] of
    [Array.prototype] and finds it no string, so the field gets an
    ["invalid_type"] error under its key and no [required] error. *)
Lemma inherited_key_is_not_required :
  has_own_property (VArray [] : jsvalue Z) "map" = false
  /\ Schema.decode (Schema.Struct [("map", Schema.String)]) (VArray [] : jsvalue Z)
     = Either.Left
         [ {| Schema.path := Some ["map"]; Schema.code := "invalid_type";
              Schema.message := "Expected string, received function";
              Schema.input := method Z.of_nat "map" 1 |} ]
  /\ ~ (exists errors,
          Schema.decode (Schema.Struct [("map", Schema.String)])
            (VArray [] : jsvalue Z)
          = Either.Left errors
          /\ In (Schema.required "map") errors).
Proof.
  repeat apply conj; [reflexivity | reflexivity | ].
  intros (errors & Hdecode & Hin).
  vm_compute in Hdecode. injection Hdecode as <-.
  destruct Hin as [Hin|[]]. discriminate Hin.
Qed.

(** A primitive whose encoder is not the identity: [decode] accepts
    ["abc"], and encoding what it decoded gives ["***"]. *)
Lemma custom_encoder_breaks_round_trip :
  Schema.ordinary_fields Masked
  /\ Schema.decode (Schema.schema_of Masked) (VString "abc")
     = Either.Right (VString "abc")
  /\ Schema.encode (Schema.schema_of Masked) (VString "abc")
     = Returned (VString "***")
  /\ ~ (exists encoded,
          Schema.encode (Schema.schema_of Masked) (VString "abc") = Returned encoded
          /\ Schema.agree Masked encoded (VString "abc")).
Proof.
  repeat apply conj; [exact I | reflexivity | reflexivity | ].
  intros (encoded & Hencode & Hagree). cbn in Hencode, Hagree.
  injection Hencode as <-. discriminate Hagree.
Qed.

(** Nor does a field named [__proto__] make the trip:
    [Struct({['__proto__']: String})] accepts the object that owns ["x"]
    under that key, as [JSON.parse] makes it, but the assignment in
    [decode] makes no property, and [encode] finds none to encode. *)
Lemma proto_field_is_not_copied :
  Schema.decode (Schema.Struct [("__proto__", Schema.String)])
    (VObject [("__proto__", VString "x")] : jsvalue Z)
  = Either.Right (VObject [])
  /\ Schema.encode (Schema.Struct [("__proto__", Schema.String)])
       (VObject [] : jsvalue Z)
     = Returned (VObject []).
Proof. split; reflexivity. Qed.

(** [Profile] decodes [{a: {b: 1, c: 2}, tags: ["x"], z: true}] to
    [{a: {b: 1}, tags: ["x"]}], which encodes to a value that agrees with
    the input on the declared fields. *)
Lemma encode_after_decode_agrees_example :
  exists encoded,
    Schema.encode (Schema.schema_of Profile)
      (VObject [("a", VObject [("b", VNumber 1%Z)]);
                ("tags", VArray [VString "x"])])
    = Returned encoded
    /\ Schema.agree Profile encoded
         (VObject [("a", VObject [("b", VNumber 1%Z); ("c", VNumber 2%Z)]);
                   ("tags", VArray [VString "x"]);
                   ("z", VBoolean true)]).
Proof.
  apply (encode_after_decode_agrees Profile).
  - cbn. repeat apply conj; try exact I;
      repeat constructor; simpl; intuition discriminate.
  - cbn. repeat apply conj; try exact I; intros; reflexivity.
  - reflexivity.
Defined.

(* ===================================================================== *)
(** * Further properties of either.ts *)
(* ===================================================================== *)

Section EitherLaws.
Context {L R R1 R2 L1 : Type}.

(** X1: [flatMap] with [Right] is a monad whose failures are sticky:
    [Right] on the left is the identity of the chain, [Right] on the right
    changes nothing, chains may be regrouped, and a [Left] passes through
    every chain unchanged. *)
Theorem Either_flatMap_laws (f : R -> Either.Either L R1)
  (g : R1 -> Either.Either L R2) (e : Either.Either L R) (r : R) (l : L) :
  Either.flatMap f (Either.Right r) = f r
  /\ Either.flatMap Either.Right e = e
  /\ Either.flatMap g (Either.flatMap f e)
     = Either.flatMap (fun x => Either.flatMap g (f x)) e
  /\ Either.flatMap g (Either.flatMap f (Either.Left l)) = Either.Left l.
Proof.
  repeat apply conj; try reflexivity; destruct e; reflexivity.
Qed.

(** X2: [map] keeps identities and compositions, is [flatMap] with the
    result wrapped in [Right], and works on the other side than [mapLeft]:
    the two commute, [map] leaves a [Left] alone and [mapLeft] a [Right]. *)
Theorem Either_map_laws (f : R -> R1) (g : R1 -> R2) (h : L -> L1)
  (e : Either.Either L R) (r : R) (l : L) :
  Either.map (fun x => x) e = e
  /\ Either.map g (Either.map f e) = Either.map (fun x => g (f x)) e
  /\ Either.map f e = Either.flatMap (fun x => Either.Right (f x)) e
  /\ Either.mapLeft h (Either.map f e) = Either.map f (Either.mapLeft h e)
  /\ Either.map f (Either.Left l) = Either.Left (R := R1) l
  /\ Either.mapLeft h (Either.Right r) = Either.Right (L := L1) r.
Proof.
  repeat apply conj; try reflexivity; destruct e; reflexivity.
Qed.

(** X3: of [isLeft] and [isRight] exactly one holds, and neither [map] nor
    [mapLeft] changes which; [flatMap] can only turn a [Right] into a
    [Left], never the other way. *)
Theorem Either_sides (f : R -> R1) (h : L -> L1) (k : R -> Either.Either L R1)
  (e : Either.Either L R) :
  Either.isLeft e = negb (Either.isRight e)
  /\ Either.isRight (Either.map f e) = Either.isRight e
  /\ Either.isRight (Either.mapLeft h e) = Either.isRight e
  /\ Either.isRight (Either.flatMap k e)
     = Either.isRight e
       && match e with
          | Either.Right r => Either.isRight (k r)
          | Either.Left _ => false
          end.
Proof.
  destruct e; repeat apply conj; reflexivity.
Qed.

End EitherLaws.

(* ===================================================================== *)
(** * Further properties of option.ts *)
(* ===================================================================== *)

Section OptionLaws.
Context {number : Type}.
Implicit Types (v : jsvalue number) (o : Option.Option number).
Implicit Types (f g : jsvalue number -> jsvalue number).

(** X4: [flatMap] with [Some] is a monad in which [None] is sticky. *)
Theorem Option_flatMap_laws (h k : jsvalue number -> Option.Option number) v o :
  Option.flatMap h (Option.Some v) = h v
  /\ Option.flatMap Option.Some o = o
  /\ Option.flatMap k (Option.flatMap h o)
     = Option.flatMap (fun x => Option.flatMap k (h x)) o
  /\ Option.flatMap k (Option.flatMap h Option.None) = Option.None.
Proof.
  repeat apply conj; try reflexivity; destruct o; reflexivity.
Qed.

(** X5: [map fn] is [flatMap] of [fromNullable] after [fn]: mapping is
    chaining with the result passed through the null check.  It is
    [None] exactly when the option was [None] or [fn] gave [null] or
    [undefined]. *)
Theorem Option_map_is_flatMap_fromNullable f o :
  Option.map f o = Option.flatMap (fun x => Option.fromNullable (f x)) o
  /\ Option.isNone (Option.map f o)
     = match o with
       | Option.Some x => is_nullish (f x)
       | Option.None => true
       end
  /\ Option.isSome (Option.map f o) = negb (Option.isNone (Option.map f o)).
Proof.
  destruct o as [x|]; repeat apply conj; try reflexivity;
    unfold Option.map, Option.bimap, Option.fromNullable; cbn;
    destruct (is_nullish (f x)); reflexivity.
Qed.

(** X6: two [map]s in a row are the [map] of the composition as long as
    the first function does not give [null] or [undefined] on the value;
    when it does, the chain is [None] whatever the second function would
    have made of [null]. *)
Theorem Option_map_composition f g v :
  (is_nullish (f v) = false ->
   Option.map g (Option.map f (Option.Some v))
   = Option.map (fun x => g (f x)) (Option.Some v))
  /\ (is_nullish (f v) = true ->
      Option.map g (Option.map f (Option.Some v)) = Option.None)
  /\ Option.map g (Option.map f Option.None) = Option.None (number := number).
Proof.
  unfold Option.map, Option.bimap. repeat apply conj.
  - intros Hf. now rewrite Hf.
  - intros Hf. now rewrite Hf.
  - reflexivity.
Qed.

(** X7: [getOrElse] after [fromNullable] is the value when it is neither
    [null] nor [undefined] and the fallback's result otherwise; on a [Some]
    the fallback plays no part. *)
Theorem getOrElse_fromNullable v (orElse orElse' : unit -> jsvalue number) :
  Option.getOrElse (Option.fromNullable v) orElse
  = (if is_nullish v then orElse tt else v)
  /\ Option.getOrElse (Option.Some v) orElse
     = Option.getOrElse (Option.Some v) orElse'
  /\ Option.getOrElse Option.None orElse = orElse tt.
Proof.
  unfold Option.fromNullable. destruct (is_nullish v); repeat apply conj; reflexivity.
Qed.

(** X8: [User.get] answers [None] exactly for an id the store does not
    hold, and for an id it holds [Some] of the stored user, whatever that
    is; so it agrees with [fromNullable] of [db.get(id)] exactly when the
    stored user is neither [null] nor [undefined]. *)
Theorem User_get_versus_fromNullable (db : list (string * jsvalue number))
  (id : string) :
  (Option.isNone (User_get db id) = negb (Map_has db id))
  /\ (forall user, lookup id db = Datatypes.Some user ->
        User_get db id = Option.Some user)
  /\ (User_get db id = Option.fromNullable (Map_get db id)
      <-> (Map_has db id = true -> is_nullish (Map_get db id) = false)).
Proof.
  unfold User_get, Map_has, Map_get, Option.fromNullable.
  destruct (lookup id db) as [user|]; cbn; (split; [|split]).
  - reflexivity.
  - now intros ? [= ->].
  - split.
    + intros Hsame _. destruct (is_nullish user); [discriminate | reflexivity].
    + intros Hdefined. now rewrite Hdefined.
  - reflexivity.
  - discriminate.
  - split; [discriminate | reflexivity].
Qed.

End OptionLaws.

(** [map] of a function that gives [null] hides the next function, which
    would have made a string of [null]; without a [null] in between the
    two [map]s are one. *)
Lemma Option_map_composition_example :
  Option.map (fun _ => VString "seen") (Option.map (fun _ => VNull)
    (Option.Some (VString "id" : jsvalue Z)))
  = Option.None
  /\ Option.map (fun _ => VString "seen") (Option.map (fun x => x)
       (Option.Some (VString "id" : jsvalue Z)))
     = Option.Some (VString "seen").
Proof.
  pose proof (Option_map_composition (fun _ => VNull) (fun _ => VString "seen")
                (VString "id" : jsvalue Z)) as (_ & Hnull & _).
  pose proof (Option_map_composition (fun x => x) (fun _ => VString "seen")
                (VString "id" : jsvalue Z)) as (Hfused & _ & _).
  split; [apply Hnull | rewrite Hfused]; reflexivity.
Defined.

(** A store that holds [null] under an id: [User.get] wraps the [null],
    where [fromNullable] would answer [None]. *)
Lemma User_get_versus_fromNullable_example :
  User_get [("42", VNull : jsvalue Z)] "42" = Option.Some VNull
  /\ User_get [("42", VNull : jsvalue Z)] "7" = Option.None.
Proof.
  split.
  - apply (proj1 (proj2 (User_get_versus_fromNullable
                           [("42", VNull : jsvalue Z)] "42"))).
    reflexivity.
  - reflexivity.
Defined.

(* ===================================================================== *)
(** * Further properties of task.ts *)
(* ===================================================================== *)

Section TaskLaws.
Context {World Exception : Type}.
Let Call := Task.Call World Exception.
Let settlement := Task.settlement Exception.
Let ReaderTaskEither := Task.ReaderTaskEither World Exception.

(** X9: [map f] calls [f] only on a success.  When the effect ends in
    [Left l], is rejected or never settles, the mapped effect ends the
    same way in the same world, whatever [f] is; when it ends in
    [Right r] and [f r] returns [b], the mapped effect ends in [Right b]
    in the world [f] left. *)
Theorem map_runs_on_success_only {E L R B : Type}
  (f : R -> Call B) (effect : ReaderTaskEither E L R) (runtime : E) (w : World) :
  (forall w1 l, effect runtime w = (w1, Task.Fulfilled (Either.Left l)) ->
     forall g : R -> Call B,
       Task.fork runtime (Task.map g effect) w
       = (w1, Task.Fulfilled (Either.Left l)))
  /\ (forall w1 e, effect runtime w = (w1, Task.Rejected e) ->
     forall g : R -> Call B,
       Task.fork runtime (Task.map g effect) w = (w1, Task.Rejected e))
  /\ (forall w1, effect runtime w = (w1, Task.Pending) ->
     forall g : R -> Call B,
       Task.fork runtime (Task.map g effect) w = (w1, Task.Pending))
  /\ (forall w1 r w2 b,
        effect runtime w = (w1, Task.Fulfilled (Either.Right r)) ->
        f r w1 = (w2, Task.Return b) ->
        Task.fork runtime (Task.map f effect) w
        = (w2, Task.Fulfilled (Either.Right b))).
Proof.
  unfold Task.fork, Task.map, Task.await, Task.call, Task.async_return.
  repeat apply conj; intros * Heffect; intros; rewrite Heffect; try reflexivity.
  now rewrite H.
Qed.

(** X10: chains of [flatMap] may be regrouped: chaining [g] after the
    chain of [f] is chaining, after the first effect, the chain of [g]
    after [f]'s effect; either way the same runs in the same worlds. *)
Theorem flatMap_is_associative {E L R B C : Type}
  (f : R -> ReaderTaskEither E L B) (g : B -> ReaderTaskEither E L C)
  (effect : ReaderTaskEither E L R) (runtime : E) (w : World) :
  Task.flatMap g (Task.flatMap f effect) runtime w
  = Task.flatMap (fun r => Task.flatMap g (f r)) effect runtime w.
Proof.
  unfold Task.flatMap, Task.await, Task.async_return.
  destruct (effect runtime w) as [w1 [[l|r]| e |]]; reflexivity.
Qed.

(** X11: two [map]s in a row are the [map] of the composed function, and
    [map f] is the [flatMap] of the effect that calls [f] and wraps what
    it returns in [Right]. *)
Theorem map_fuses {E L R B C : Type}
  (f : R -> Call B) (g : B -> Call C)
  (effect : ReaderTaskEither E L R) (runtime : E) (w : World) :
  Task.map g (Task.map f effect) runtime w
  = Task.map (then_call f g) effect runtime w
  /\ Task.map f effect runtime w
     = Task.flatMap
         (fun r _ => Task.await (Task.call (f r))
                       (fun b => Task.async_return (Either.Right b)))
         effect runtime w.
Proof.
  unfold Task.map, Task.flatMap, Task.await, Task.call, Task.async_return, then_call.
  destruct (effect runtime w) as [w1 [[l|r]| e |]]; split; try reflexivity.
  destruct (f r w1) as [w2 [b|e]]; [|reflexivity].
  destruct (g b w2) as [w3 [c|e]]; reflexivity.
Qed.

(** X12: the pipeline of the example, [from] an operation, then [map] of a
    schema's [decode], forked.  When the operation fulfils with [v] the
    result is [Right] of the whole validation of [v]: a validation failure
    stays inside the success channel, as [Right (Left errors)].  When the
    operation throws or rejects the result is [Left] of what was thrown,
    and the forked promise is never rejected. *)
Theorem decode_under_map_stays_right {E number : Type}
  (operation : E -> Call (settlement (jsvalue number)))
  (schema : Schema.Schema number) (runtime : E) (w : World) :
  let app := Task.fork runtime
               (Task.map (total (Schema.decode schema)) (Task.from operation)) in
  (forall w' v, operation runtime w = (w', Task.Return (Task.Fulfilled v)) ->
     app w = (w', Task.Fulfilled (Either.Right (Schema.decode schema v))))
  /\ (forall w' v errors,
        operation runtime w = (w', Task.Return (Task.Fulfilled v)) ->
        Schema.decode schema v = Either.Left errors ->
        app w = (w', Task.Fulfilled (Either.Right (Either.Left errors))))
  /\ (forall w' e, operation runtime w = (w', Task.Throw e) ->
        app w = (w', Task.Fulfilled (Either.Left e)))
  /\ (forall w' e, operation runtime w = (w', Task.Return (Task.Rejected e)) ->
        app w = (w', Task.Fulfilled (Either.Left e)))
  /\ (forall e, snd (app w) <> Task.Rejected e).
Proof.
  cbv zeta.
  unfold Task.fork, Task.map, Task.from, Task.try_catch, Task.await, Task.call,
    Task.call_async, Task.async_return, total.
  repeat apply conj.
  - intros w' v Hop. now rewrite Hop.
  - intros w' v errors Hop Hdecode. now rewrite Hop, Hdecode.
  - intros w' e Hop. now rewrite Hop.
  - intros w' e Hop. now rewrite Hop.
  - intros e. destruct (operation runtime w) as [w' [[v| e' |]|e']]; cbn; discriminate.
Qed.

End TaskLaws.

(** After a fetch that throws, ["parse"] is never logged; after one that
    succeeds, a function that returns is applied to what was fetched. *)
Lemma map_runs_on_success_only_example :
  Task.fork tt (Task.map parse_throws (Task.from fetch_throws)) []
  = (["fetch"], Task.Fulfilled (Either.Left "offline"))
  /\ Task.fork tt (Task.map (fun n => logged "double" (Task.Return (2 * n)%Z))
                     (Task.from fetch_ok)) []
     = (["fetch"; "double"], Task.Fulfilled (Either.Right 20%Z)).
Proof.
  split.
  - apply (proj1 (map_runs_on_success_only parse_throws
                    (Task.from fetch_throws) tt [])).
    reflexivity.
  - apply (proj2 (proj2 (proj2
             (map_runs_on_success_only
                (fun n => logged "double" (Task.Return (2 * n)%Z))
                (Task.from fetch_ok) tt [])))
             ["fetch"] 10%Z).
    + reflexivity.
    + reflexivity.
Defined.

(** A fetched string is no todo: forked, the pipeline is fulfilled with
    [Right] of the validation's [Left]. *)
Lemma decode_under_map_stays_right_example :
  Task.fork tt
    (Task.map (total (Schema.decode (Schema.Struct [("title", Schema.String)])))
       (Task.from (fun _ : unit =>
                     logged "fetch"
                       (Task.Return (Exception := string)
                          (Task.Fulfilled (VString "oops" : jsvalue Z))))))
    []
  = (["fetch"],
     Task.Fulfilled
       (Either.Right
          (Either.Left
             [Schema.not_an_object (VString "oops" : jsvalue Z)]))).
Proof.
  apply (proj1 (proj2
           (decode_under_map_stays_right
              (fun _ : unit =>
                 logged "fetch"
                   (Task.Return (Exception := string)
                      (Task.Fulfilled (VString "oops" : jsvalue Z))))
              (Schema.Struct [("title", Schema.String)]) tt []))
           ["fetch"] (VString "oops")).
  - reflexivity.
  - reflexivity.
Defined.

(* ===================================================================== *)
(** * Further properties of validation.ts: [List] *)
(* ===================================================================== *)

Section ListProperties.
Context {number : Type} `{Runtime number}.
Implicit Types (itemSchema : Schema.Schema number) (data item : jsvalue number).
Implicit Types (items decoded : list (jsvalue number)).

Lemma items_all_right itemSchema items decoded i :
  Forall2 (fun item r => Schema.decode itemSchema item = Either.Right r)
    items decoded ->
  Schema.items_errors itemSchema items i = []
  /\ flat_map (Schema.item_decoded itemSchema) items = decoded.
Proof.
  intros Hall. revert i.
  induction Hall as [|item r items decoded Hitem _ IH]; intros i; [now split|].
  cbn [Schema.items_errors flat_map]. unfold Schema.item_decoded at 1.
  rewrite Hitem. destruct (IH (S i)) as [-> ->]. now split.
Qed.

Lemma List_decode_all_right itemSchema items decoded :
  Forall2 (fun item r => Schema.decode itemSchema item = Either.Right r)
    items decoded ->
  Schema.decode (Schema.List itemSchema) (VArray items)
  = Either.Right (VArray decoded).
Proof.
  intros Hall. rewrite List_decode_array.
  now destruct (items_all_right _ _ _ 0 Hall) as [-> ->].
Qed.

Lemma items_errors_under itemSchema items i err :
  In err (Schema.items_errors itemSchema items i) ->
  exists n, n < List.length items
            /\ Schema.under (index_string (i + n)) err = true.
Proof.
  revert i. induction items as [|item rest IH]; intros i Hin; [contradiction|].
  cbn [Schema.items_errors] in Hin. apply in_app_or in Hin as [Hhere|Hrest].
  - exists 0. split; [cbn; lia|]. rewrite Nat.add_0_r.
    destruct (Schema.decode itemSchema item) as [nested|r]; [|contradiction].
    apply in_map_iff in Hhere as (nested_err & <- & _).
    rewrite under_with_key. apply String.eqb_refl.
  - destruct (IH _ Hrest) as (n & Hn & Hunder).
    exists (S n). split; [cbn; lia|].
    now replace (i + S n) with (S i + n) by lia.
Qed.

(** X13: on an array, [decode] of a [List] looks at every element.  With
    [errors] the errors of all the elements in index order, it fails with
    exactly [errors] when there is one and succeeds otherwise.  When every
    element decodes, the result is the array of the decoded elements, as
    many and in the order of the input; when the element at index [i]
    fails, the whole list fails and all of that element's errors are in
    the failure under [i], whatever happens to the other elements. *)
Theorem List_decode_accumulates itemSchema items :
  let errors := Schema.items_errors itemSchema items 0 in
  (errors <> [] ->
     Schema.decode (Schema.List itemSchema) (VArray items) = Either.Left errors)
  /\ (errors = [] ->
      exists decoded,
        Schema.decode (Schema.List itemSchema) (VArray items)
        = Either.Right (VArray decoded))
  /\ (forall decoded,
        Forall2 (fun item r => Schema.decode itemSchema item = Either.Right r)
          items decoded ->
        Schema.decode (Schema.List itemSchema) (VArray items)
        = Either.Right (VArray decoded)
        /\ List.length decoded = List.length items)
  /\ (forall i item nested,
        nth_error items i = Datatypes.Some item ->
        Schema.decode itemSchema item = Either.Left nested ->
        nested <> [] ->
        Schema.decode (Schema.List itemSchema) (VArray items) = Either.Left errors
        /\ incl (List.map (Schema.with_key (index_string i)) nested) errors).
Proof.
  cbv zeta. split; [|split; [|split]].
  - intros Hsome. rewrite List_decode_array.
    destruct (Schema.items_errors itemSchema items 0); congruence.
  - intros Hnone. rewrite List_decode_array, Hnone. eauto.
  - intros decoded Hall. split; [now apply List_decode_all_right|].
    symmetry. eapply Forall2_length. eassumption.
  - intros i item nested Hnth Hdecode Hsome.
    assert (incl (List.map (Schema.with_key (index_string i)) nested)
              (Schema.items_errors itemSchema items 0)) as Hincl.
    { intros err' Hin. apply in_map_iff in Hin as (err & <- & Hin).
      now apply (items_errors_in itemSchema items 0 i item nested err). }
    split; [|exact Hincl].
    rewrite List_decode_array.
    destruct nested as [|err nested]; [congruence|].
    pose proof (Hincl _ (or_introl eq_refl)) as Hin. revert Hin.
    destruct (Schema.items_errors itemSchema items 0); [contradiction | reflexivity].
Qed.

(** X14: [decode] of a [List] answers with the single error
    [not_an_array], of code ["invalid_type"] and with no path, exactly
    when the input is no array; for [null] its message says
    ["received object"], the [typeof] of [null].  Every error an array
    gets lies under the index of one of its elements. *)
Theorem List_rejects_exactly_non_arrays itemSchema data :
  (Schema.decode (Schema.List itemSchema) data
   = Either.Left [Schema.not_an_array data]
   <-> isArray data = false)
  /\ Schema.code (Schema.not_an_array data) = "invalid_type"
  /\ Schema.path (Schema.not_an_array data) = Datatypes.None
  /\ Schema.message (Schema.not_an_array (@VNull number))
     = "Expected array, received object"
  /\ (forall items errors err,
        data = VArray items ->
        Schema.decode (Schema.List itemSchema) data = Either.Left errors ->
        In err errors ->
        exists i, i < List.length items
                  /\ Schema.under (index_string i) err = true).
Proof.
  split; [split|split; [reflexivity|split; [reflexivity|split; [reflexivity|]]]].
  - destruct data as [| | | | |items|props|props|description]; try reflexivity.
    rewrite List_decode_array. intros Hdecode. exfalso.
    destruct (Schema.items_errors itemSchema items 0) as [|e errors] eqn:Herrors;
      [discriminate|].
    injection Hdecode as -> ->.
    destruct (items_errors_under itemSchema items 0 (Schema.not_an_array (VArray items)))
      as (n & _ & Hunder).
    { rewrite Herrors. now left. }
    discriminate Hunder.
  - destruct data; try reflexivity; discriminate.
  - intros items errors err -> Hdecode Hin.
    rewrite List_decode_array in Hdecode.
    destruct (Schema.items_errors itemSchema items 0) as [|e rest] eqn:Herrors;
      [discriminate|].
    injection Hdecode as <-. rewrite <- Herrors in Hin.
    destruct (items_errors_under _ _ _ _ Hin) as (n & Hn & Hunder). eauto.
Qed.

End ListProperties.

(** [List(Number).decode(["x", 1, "y"])] reports both strings, under
    ["0"] and ["2"]; [List(Number).decode([1, 2])] gives [[1, 2]]. *)
Lemma List_decode_accumulates_example :
  Schema.decode (Schema.List Schema.Number)
    (VArray [VString "x"; VNumber 1%Z; VString "y"])
  = Either.Left
      [ {| Schema.path := Datatypes.Some ["0"]; Schema.code := "invalid_type";
           Schema.message := "Expected number, received string";
           Schema.input := VString "x" |};
        {| Schema.path := Datatypes.Some ["2"]; Schema.code := "invalid_type";
           Schema.message := "Expected number, received string";
           Schema.input := VString "y" |} ]
  /\ Schema.decode (Schema.List Schema.Number) (VArray [VNumber 1%Z; VNumber 2%Z])
     = Either.Right (VArray [VNumber 1%Z; VNumber 2%Z]).
Proof.
  split.
  - apply (proj1 (List_decode_accumulates Schema.Number
                    [VString "x"; VNumber 1%Z; VString "y"])).
    discriminate.
  - apply (proj1 (proj2 (proj2 (List_decode_accumulates Schema.Number
                                  [VNumber 1%Z; VNumber 2%Z])))).
    repeat constructor.
Defined.

(** An object is no array, and an array of strings is not turned away as
    one by [List(Number)]: its errors lie under its indices. *)
Lemma List_rejects_exactly_non_arrays_example :
  Schema.decode (Schema.List Schema.Number) (VObject [] : jsvalue Z)
  = Either.Left
      [ {| Schema.path := Datatypes.None; Schema.code := "invalid_type";
           Schema.message := "Expected array, received object";
           Schema.input := VObject [] |} ].
Proof.
  apply (proj1 (List_rejects_exactly_non_arrays Schema.Number (VObject [] : jsvalue Z))).
  reflexivity.
Defined.

(* ===================================================================== *)
(** * Further properties of validation.ts: [Literal], [transform], [make] *)
(* ===================================================================== *)

Section ConstructorProperties.
Context {number : Type} `{Runtime number} `{Host number}.
Implicit Types (schema : Schema.Schema number) (data literal : jsvalue number).

(** X15: [Literal] accepts exactly what is [===] to its literal, and
    answers with the literal; a refusal is one [invalid_literal] error
    without a path, carrying the input.  What it decoded it encodes back
    unchanged, provided the literal is [===] to itself.  A literal that is
    not, as [NaN] is not, is refused by its own schema: [decode], [make]
    and [encode] all fail on it. *)
Theorem Literal_accepts_what_equals_it literal data :
  (forall decoded,
     Schema.decode (Schema.Literal literal) data = Either.Right decoded ->
     decoded = literal /\ strict_equals data literal = true)
  /\ (forall errors,
        Schema.decode (Schema.Literal literal) data = Either.Left errors ->
        strict_equals data literal = false
        /\ exists err, errors = [err]
                       /\ Schema.code err = "invalid_literal"
                       /\ Schema.path err = Datatypes.None
                       /\ Schema.input err = data)
  /\ (forall decoded,
        Schema.decode (Schema.Literal literal) data = Either.Right decoded ->
        strict_equals literal literal = true ->
        Schema.encode (Schema.Literal literal) decoded = Returned decoded)
  /\ (strict_equals literal literal = false ->
      (exists errors,
         Schema.decode (Schema.Literal literal) literal = Either.Left errors)
      /\ (exists m, Schema.make (Schema.Literal literal) literal = Thrown m)
      /\ (exists m, Schema.encode (Schema.Literal literal) literal = Thrown m)).
Proof.
  cbn [Schema.Literal Schema.decode Schema.encode Schema.make].
  split; [|split; [|split]].
  - intros decoded. destruct (strict_equals data literal); [|discriminate].
    intros [= <-]. now split.
  - intros errors. destruct (strict_equals data literal); [discriminate|].
    intros [= <-]. split; [reflexivity|]. eexists. repeat split.
  - intros decoded. destruct (strict_equals data literal); [|discriminate].
    intros [= <-] ->. reflexivity.
  - intros ->. cbn [negb]. repeat split; eexists; reflexivity.
Qed.

(** X16: a [transform] whose [reverseTransformer] undoes its
    [transformer] on what the base schema decoded: [decode] gives the
    transformed value, and encoding it gives what the base schema encodes
    for its own decoded value, a throw of the base coming out under the
    prefix ["Encoding error: "]. *)
Theorem transform_round_trip schema
  (transformer reverseTransformer : jsvalue number -> completion (jsvalue number))
  data a b :
  Schema.decode schema data = Either.Right a ->
  transformer a = Returned b ->
  reverseTransformer b = Returned a ->
  Schema.decode (Schema.transform schema transformer reverseTransformer) data
  = Either.Right b
  /\ Schema.make (Schema.transform schema transformer reverseTransformer) data
     = Returned b
  /\ Schema.encode (Schema.transform schema transformer reverseTransformer) b
     = match Schema.encode schema a with
       | Returned encoded => Returned encoded
       | Thrown m => Thrown ("Encoding error: " ++ m)
       end.
Proof.
  intros Hdecode Hforward Hbackward.
  cbn [Schema.transform Schema.decode Schema.encode Schema.make].
  rewrite Hdecode, Hforward, Hbackward. repeat split.
Qed.

Lemma prefix_append (p s : string) : String.prefix p (p ++ s) = true.
Proof.
  induction p as [|c p IH]; cbn.
  - now destruct s.
  - destruct (ascii_dec c c); [exact IH | contradiction].
Qed.

(** X17: for a schema built by any of the five constructors, [make]
    returns a value exactly when [decode] succeeds with it, and throws
    exactly when [decode] fails, with a message that starts with
    ["Validation failed: "]. *)
Theorem make_succeeds_exactly_when_decode_does schema data :
  constructed schema ->
  (forall r, Schema.decode schema data = Either.Right r
             <-> Schema.make schema data = Returned r)
  /\ (forall errors,
        Schema.decode schema data = Either.Left errors ->
        exists m, Schema.make schema data = Thrown m
                  /\ String.prefix "Validation failed: " m = true)
  /\ (forall m, Schema.make schema data = Thrown m ->
        exists errors, Schema.decode schema data = Either.Left errors).
Proof.
  intros [guard typeName encoder|literal|validators _|itemSchema _
          |base transformer reverseTransformer _].
  - cbn [Schema.makePrimitive Schema.decode Schema.make].
    destruct (guard data); repeat split; intros; try congruence; eauto;
      try (eexists; split; [reflexivity | apply prefix_append]).
  - cbn [Schema.Literal Schema.decode Schema.make].
    destruct (strict_equals data literal); cbn [negb];
      repeat split; intros; try congruence; eauto;
      try (eexists; split; [reflexivity | apply prefix_append]).
  - pose proof (proj1 (make_reports_decode_errors data) validators) as Hmake.
    unfold Schema.reports in Hmake. rewrite Hmake.
    destruct (Schema.decode (Schema.Struct validators) data);
      repeat split; intros; try congruence; eauto;
      try (eexists; split; [reflexivity | apply prefix_append]).
  - pose proof (proj1 (proj2 (make_reports_decode_errors data)) itemSchema) as Hmake.
    unfold Schema.reports in Hmake. rewrite Hmake.
    destruct (Schema.decode (Schema.List itemSchema) data);
      repeat split; intros; try congruence; eauto;
      try (eexists; split; [reflexivity | apply prefix_append]).
  - rewrite transform_make_joins_messages.
    destruct (Schema.decode (Schema.transform base transformer reverseTransformer) data);
      repeat split; intros; try congruence; eauto;
      try (eexists; split; [reflexivity | apply prefix_append]).
Qed.

Lemma constructed_failure_has_an_error schema data errors :
  constructed schema ->
  Schema.decode schema data = Either.Left errors -> errors <> [].
Proof.
  intros Hbuilt. revert data errors.
  induction Hbuilt as [guard typeName encoder|literal|validators _|itemSchema _ _
                      |base transformer reverseTransformer _ IH];
    intros data errors.
  - cbn. destruct (guard data); [discriminate|]. intros [= <-]. discriminate.
  - cbn. destruct (strict_equals data literal); [discriminate|].
    intros [= <-]. discriminate.
  - destruct (Schema.is_object data) eqn:Hobj.
    + rewrite (Struct_decode_object _ _ Hobj).
      destruct (flat_map _ _); [discriminate|]. intros [= <-]. discriminate.
    + rewrite (Struct_decode_not_object _ _ Hobj). intros [= <-]. discriminate.
  - destruct data as [| | | | |items|props|props|description]; try (intros [= <-]; discriminate).
    rewrite List_decode_array.
    destruct (Schema.items_errors _ _ _); [discriminate|]. intros [= <-]. discriminate.
  - cbn [Schema.transform Schema.decode].
    destruct (Schema.decode base data) as [nested|a] eqn:Hbase.
    + intros [= <-]. now apply IH with data.
    + destruct (transformer a); [discriminate|]. intros [= <-]. discriminate.
Qed.

(** X18: a schema built by the constructors, from schemas built by them,
    never fails empty-handed: a [Left] of its [decode] holds at least one
    error, so that [make] always has an error to name. *)
Theorem decode_never_fails_without_an_error schema data errors :
  constructed schema ->
  Schema.decode schema data = Either.Left errors ->
  exists err rest, errors = err :: rest.
Proof.
  intros Hbuilt Hdecode.
  pose proof (constructed_failure_has_an_error _ _ _ Hbuilt Hdecode) as Hsome.
  destruct errors as [|err rest]; [contradiction | eauto].
Qed.

End ConstructorProperties.

(** [Literal("admin").decode("user")] fails with [invalid_literal], and
    [Literal(NaN)] refuses [NaN] itself. *)
Lemma Literal_accepts_what_equals_it_example :
  (exists err,
     Schema.decode (Schema.Literal (VString "admin")) (VString "user")
     = Either.Left [err]
     /\ Schema.code err = "invalid_literal")
  /\ Schema.encode (Schema.Literal (VString "admin")) (VString "admin")
     = Returned (VString "admin")
  /\ (exists errors,
        Schema.decode (Schema.Literal (VNumber Datatypes.None))
          (VNumber Datatypes.None)
        = Either.Left errors).
Proof.
  pose proof (@Literal_accepts_what_equals_it (option Z) _ _
                (VString "admin") (VString "user")) as (_ & Hrefused & _).
  pose proof (@Literal_accepts_what_equals_it (option Z) _ _
                (VString "admin") (VString "admin")) as (_ & _ & Hback & _).
  pose proof (@Literal_accepts_what_equals_it (option Z) _ _
                (VNumber Datatypes.None) VNull) as (_ & _ & _ & Hnan).
  split; [|split].
  - destruct (Hrefused _ eq_refl) as (_ & err & Herr & Hcode & _).
    exists err. rewrite <- Herr. split; [reflexivity | exact Hcode].
  - apply Hback; reflexivity.
  - apply Hnan. reflexivity.
Defined.

(** A boolean stored as ["yes"] or ["no"]: the transform decodes [true] to
    ["yes"] and encodes ["yes"] back to [true]. *)
Lemma transform_round_trip_example :
  let yes_no := fun v : jsvalue Z =>
                  match v with
                  | VBoolean true => Returned (VString "yes")
                  | VBoolean false => Returned (VString "no")
                  | _ => Thrown "not a boolean"
                  end in
  let back := fun v : jsvalue Z =>
                match v with
                | VString "yes" => Returned (VBoolean true)
                | VString "no" => Returned (VBoolean false)
                | _ => Thrown "not yes or no"
                end in
  Schema.decode (Schema.transform Schema.Boolean yes_no back) (VBoolean true)
  = Either.Right (VString "yes")
  /\ Schema.encode (Schema.transform Schema.Boolean yes_no back) (VString "yes")
     = Returned (VBoolean true).
Proof.
  cbv zeta.
  match goal with
  | |- Schema.decode (Schema.transform _ ?f ?g) _ = _ /\ _ =>
      pose proof (transform_round_trip Schema.Boolean f g
                    (VBoolean true) (VBoolean true) (VString "yes")
                    eq_refl eq_refl eq_refl) as (Hdecode & _ & Hencode)
  end.
  split; [exact Hdecode | exact Hencode].
Defined.

(** [make] of the nested struct of the specification on [{a: {}}] throws,
    as its [decode] fails. *)
Lemma make_succeeds_exactly_when_decode_does_example :
  exists m,
    Schema.make (Schema.Struct [("a", Schema.Struct [("b", Schema.Number)])])
      (VObject [("a", VObject [])] : jsvalue (option Z))
    = Thrown m
    /\ String.prefix "Validation failed: " m = true.
Proof.
  assert (constructed (number := option Z)
            (Schema.Struct [("a", Schema.Struct [("b", Schema.Number)])]))
    as Hbuilt.
  { apply constructed_struct. constructor; [|constructor]. cbn [snd].
    apply constructed_struct. constructor; [|constructor]. cbn [snd].
    apply constructed_primitive. }
  apply (proj1 (proj2 (make_succeeds_exactly_when_decode_does _
                         (VObject [("a", VObject [])] : jsvalue (option Z))
                         Hbuilt))
           [Schema.with_key "a" (Schema.required "b")]).
  reflexivity.
Defined.

(** A [transform] over a list of literals that fails passes on the
    list's error. *)
Lemma decode_never_fails_without_an_error_example :
  exists err rest,
    Schema.decode
      (Schema.transform (Schema.List (Schema.Literal (VString "admin")))
         Schema.identity Schema.identity)
      (VArray [VString "admin"; VString "user"] : jsvalue (option Z))
    = Either.Left (err :: rest).
Proof.
  assert (constructed (number := option Z)
            (Schema.transform (Schema.List (Schema.Literal (VString "admin")))
               Schema.identity Schema.identity))
    as Hbuilt.
  { apply constructed_transform, constructed_list, constructed_literal. }
  destruct (decode_never_fails_without_an_error _
              (VArray [VString "admin"; VString "user"] : jsvalue (option Z))
              _ Hbuilt eq_refl)
    as (err & rest & Herrors).
  exists err, rest. now rewrite <- Herrors.
Defined.

(* ===================================================================== *)
(** * Further properties of validation.ts: what [Struct] decodes to and
      what [Struct] and [List] encode *)
(* ===================================================================== *)

Section StructProperties.
Context {number : Type} `{Runtime number}.
Implicit Types (data value : jsvalue number) (key : string).
Implicit Types (validators : list (string * Schema.Schema number)).

Lemma lookup_set_property_kept key k props (v old : jsvalue number) :
  lookup key props = Datatypes.Some old ->
  exists v', lookup key (set_property props k v) = Datatypes.Some v'.
Proof.
  intros Hold. destruct (String.eqb_spec k key) as [->|Hne].
  - unfold set_property. destruct (key =? "__proto__"); [eauto|].
    rewrite lookup_write_property_same. eauto.
  - rewrite lookup_set_property_other by assumption. eauto.
Qed.

Lemma lookup_assign_all_kept key (decoded result : list (string * jsvalue number)) old :
  lookup key result = Datatypes.Some old ->
  exists v, lookup key (Schema.assign_all result decoded) = Datatypes.Some v.
Proof.
  revert result old. induction decoded as [|[k v] rest IH]; intros result old Hold.
  - eauto.
  - cbn [Schema.assign_all fold_left fst snd].
    fold (Schema.assign_all (set_property result k v) rest).
    destruct (lookup_set_property_kept key k result v old Hold) as (v' & Hkept).
    now apply IH with v'.
Qed.

Lemma lookup_assign_all_written key (decoded result : list (string * jsvalue number)) :
  key <> "__proto__" ->
  In key (List.map fst decoded) ->
  exists v, lookup key (Schema.assign_all result decoded) = Datatypes.Some v.
Proof.
  intros Hordinary. revert result.
  induction decoded as [|[k v] rest IH]; intros result Hin; [contradiction|].
  cbn [Schema.assign_all fold_left fst snd List.map] in *.
  fold (Schema.assign_all (set_property result k v) rest).
  destruct Hin as [->|Hin]; [|now apply IH].
  apply lookup_assign_all_kept with v. now apply lookup_set_property_same.
Qed.

Lemma lookup_assign_all_proto (decoded result : list (string * jsvalue number)) :
  lookup "__proto__" (Schema.assign_all result decoded)
  = lookup "__proto__" result.
Proof.
  revert result. induction decoded as [|[k v] rest IH]; intros result;
    [reflexivity|].
  cbn [Schema.assign_all fold_left fst snd].
  fold (Schema.assign_all (set_property result k v) rest).
  rewrite IH. apply lookup_set_property_proto.
Qed.

Lemma decoded_keys_are_the_declared validators data :
  (forall field nested,
     In field validators ->
     Schema.decode (snd field) (get_property data (fst field)) = Either.Left nested ->
     nested <> []) ->
  flat_map (Schema.field_errors data) validators = [] ->
  List.map fst (flat_map (Schema.field_decoded data) validators)
  = List.map fst validators.
Proof.
  induction validators as [|field rest IH]; intros Hsome Herrors; [reflexivity|].
  cbn [flat_map List.map] in *.
  apply app_eq_nil in Herrors as [Hhere Hrest].
  rewrite map_app, IH;
    [|intros field' nested' Hin Hfails; apply (Hsome field' nested');
      [now right | assumption] | assumption].
  unfold Schema.field_errors in Hhere. unfold Schema.field_decoded.
  destruct (is_undefined _); [discriminate|].
  destruct (Schema.decode _ _) as [nested|r] eqn:Hdecode; [|reflexivity].
  apply map_eq_nil in Hhere. subst nested.
  now apply (Hsome field []) in Hdecode; [|now left].
Qed.

(** X19: when a [Struct] whose field schemas are built by the
    constructors decodes an input, the decoded value is an object that
    owns exactly the declared keys other than [__proto__]: every such
    field is there, and nothing else; a field declared under [__proto__]
    is assigned through the inherited setter and leaves no property. *)
Theorem Struct_decoded_owns_the_declared_keys `{Host number}
  validators data decoded :
  Forall (fun field => constructed (snd field)) validators ->
  Schema.decode (Schema.Struct validators) data = Either.Right decoded ->
  exists result,
    decoded = VObject result
    /\ forall key,
         has_own_property decoded key = true
         <-> In key (List.map fst validators) /\ key <> "__proto__".
Proof.
  intros Hbuilt Hdecode.
  destruct (Schema.is_object data) eqn:Hobj;
    [|now rewrite (Struct_decode_not_object _ _ Hobj) in Hdecode].
  rewrite (Struct_decode_object _ _ Hobj) in Hdecode.
  destruct (flat_map (Schema.field_errors data) validators) eqn:Herrors;
    [|discriminate].
  injection Hdecode as <-. eexists. split; [reflexivity|].
  assert (List.map fst (flat_map (Schema.field_decoded data) validators)
          = List.map fst validators) as Hkeys.
  { apply decoded_keys_are_the_declared; [|assumption].
    intros field nested Hfield Hfails.
    rewrite Forall_forall in Hbuilt.
    exact (constructed_failure_has_an_error _ _ _ (Hbuilt _ Hfield) Hfails). }
  intros key. unfold has_own_property. cbn [own_property]. split.
  - intros Howned. split.
    + rewrite <- Hkeys.
      destruct (in_dec string_dec key
                  (List.map fst (flat_map (Schema.field_decoded data) validators)))
        as [Hin|Hout]; [assumption|].
      rewrite lookup_assign_all_other in Howned by assumption. discriminate.
    + intros ->. rewrite lookup_assign_all_proto in Howned. discriminate.
  - intros [Hin Hordinary]. rewrite <- Hkeys in Hin.
    destruct (lookup_assign_all_written key _ [] Hordinary Hin) as (v & ->).
    reflexivity.
Qed.

(** *** [Struct]'s [encode] *)

Lemma lookup_set_property_cases key k props (v : jsvalue number) :
  lookup key (set_property props k v) <> Datatypes.None ->
  k = key \/ lookup key props <> Datatypes.None.
Proof.
  destruct (String.eqb_spec k key) as [->|Hne]; [now left|].
  rewrite lookup_set_property_other by assumption. now right.
Qed.

Lemma encode_fields_owned validators value acc result key :
  Schema.encode_fields validators value acc = Returned result ->
  lookup key result <> Datatypes.None ->
  lookup key acc <> Datatypes.None
  \/ (In key (List.map fst validators)
      /\ has_own_property value key = true
      /\ get_property value key <> VUndefined).
Proof.
  revert acc. induction validators as [|[k validator] rest IH]; intros acc.
  - cbn. intros [= <-]. now left.
  - cbn [Schema.encode_fields List.map fst].
    destruct (is_nullish value); [discriminate|].
    destruct (has_own_property value k) eqn:Howned.
    + destruct (get_property value k) eqn:Hread; cbn [is_undefined negb];
        try (destruct (Schema.encode validator _) as [encoded|m]; [|discriminate];
             intros Hrest Hkey;
             destruct (IH _ Hrest Hkey) as [Hacc|(Hin & Hown & Hdefined)];
             [ apply lookup_set_property_cases in Hacc as [<-|Hacc];
               [ right; repeat split; [now left | assumption | congruence]
               | now left ]
             | right; repeat split; [now right | assumption | assumption] ]).
      intros Hrest Hkey.
      destruct (IH _ Hrest Hkey) as [Hacc|(Hin & Hown & Hdefined)];
        [now left | right; repeat split; [now right | assumption | assumption]].
    + intros Hrest Hkey.
      destruct (IH _ Hrest Hkey) as [Hacc|(Hin & Hown & Hdefined)];
        [now left | right; repeat split; [now right | assumption | assumption]].
Qed.

Lemma encode_fields_thrown validators value acc m :
  is_nullish value = false ->
  Schema.encode_fields validators value acc = Thrown m ->
  exists key validator,
    In (key, validator) validators
    /\ Schema.encode validator (get_property value key) = Thrown m.
Proof.
  intros Hvalue. revert acc.
  induction validators as [|[k validator] rest IH]; intros acc; [discriminate|].
  cbn [Schema.encode_fields]. rewrite Hvalue.
  assert (forall acc', Schema.encode_fields rest value acc' = Thrown m ->
            exists key validator',
              In (key, validator') ((k, validator) :: rest)
              /\ Schema.encode validator' (get_property value key) = Thrown m)
    as Hlater.
  { intros acc' Hrest. destruct (IH _ Hrest) as (key & validator' & Hin & Hthrown).
    exists key, validator'. split; [now right | assumption]. }
  destruct (has_own_property value k); [|apply Hlater].
  destruct (is_undefined (get_property value k)); cbn [negb]; [apply Hlater|].
  destruct (Schema.encode validator (get_property value k)) as [encoded|m'] eqn:Hencode;
    [apply Hlater|].
  intros [= <-]. exists k, validator. split; [now left | assumption].
Qed.

Lemma encode_fields_none_owned validators value acc :
  is_nullish value = false ->
  (forall key, In key (List.map fst validators) ->
     has_own_property value key = false) ->
  Schema.encode_fields validators value acc = Returned acc.
Proof.
  intros Hvalue. induction validators as [|[k validator] rest IH]; intros Hnone;
    [reflexivity|].
  cbn [Schema.encode_fields]. rewrite Hvalue.
  rewrite (Hnone k) by now left.
  apply IH. intros key Hin. apply Hnone. now right.
Qed.

(** X20: [encode] of a [Struct] never asks for a field.  On a value that
    is neither [null] nor [undefined], the encoded object owns only
    declared keys that the value owns with a value other than [undefined];
    a value that owns none of the declared fields encodes to the empty
    object; and [encode] throws only what the encoder of a declared field
    threw on the value's field. *)
Theorem Struct_encode_skips_what_is_missing validators value :
  is_nullish value = false ->
  (forall encoded,
     Schema.encode (Schema.Struct validators) value = Returned encoded ->
     exists result,
       encoded = VObject result
       /\ forall key,
            has_own_property encoded key = true ->
            In key (List.map fst validators)
            /\ has_own_property value key = true
            /\ get_property value key <> VUndefined)
  /\ ((forall key, In key (List.map fst validators) ->
         has_own_property value key = false) ->
      Schema.encode (Schema.Struct validators) value = Returned (VObject []))
  /\ (forall m,
        Schema.encode (Schema.Struct validators) value = Thrown m ->
        exists key validator,
          In (key, validator) validators
          /\ Schema.encode validator (get_property value key) = Thrown m).
Proof.
  intros Hvalue. cbn [Schema.Struct Schema.encode]. split; [|split].
  - intros encoded.
    destruct (Schema.encode_fields validators value []) as [result|m] eqn:Hfields;
      [|discriminate].
    intros [= <-]. exists result. split; [reflexivity|].
    intros key Howned. unfold has_own_property in Howned.
    cbn [own_property] in Howned.
    destruct (encode_fields_owned _ _ _ _ key Hfields) as [Hacc|Hfound].
    + destruct (lookup key result); [discriminate | discriminate].
    + now contradiction Hacc.
    + exact Hfound.
  - intros Hnone. now rewrite encode_fields_none_owned.
  - intros m.
    destruct (Schema.encode_fields validators value []) as [result|m'] eqn:Hfields;
      [discriminate|].
    intros [= <-]. now apply encode_fields_thrown with [].
Qed.

(** *** [List]'s [encode] *)




End StructProperties.

(** [Struct({a: String}).decode({a: "x", z: 1})] gives an object that
    owns ["a"] and nothing else. *)
Lemma Struct_decoded_owns_the_declared_keys_example :
  exists result,
    (VObject [("a", VString "x")] : jsvalue (option Z)) = VObject result
    /\ forall key,
         has_own_property (VObject [("a", VString "x")] : jsvalue (option Z)) key
         = true
         <-> In key ["a"] /\ key <> "__proto__".
Proof.
  apply (Struct_decoded_owns_the_declared_keys
           [("a", Schema.String)]
           (VObject [("a", VString "x"); ("z", VNumber (Datatypes.Some 1%Z))])).
  - constructor; [|constructor]. cbn [snd]. apply constructed_primitive.
  - reflexivity.
Defined.

(** A value without any of the declared fields encodes to [{}], and a
    missing field is skipped next to one that is there. *)
Lemma Struct_encode_skips_what_is_missing_example :
  Schema.encode (Schema.Struct [("a", Schema.String); ("b", Schema.Number)])
    (VObject [("z", VBoolean true)] : jsvalue Z)
  = Returned (VObject [])
  /\ Schema.encode (Schema.Struct [("a", Schema.String); ("b", Schema.Number)])
       (VObject [("a", VString "x")] : jsvalue Z)
     = Returned (VObject [("a", VString "x")]).
Proof.
  split.
  - apply (proj1 (proj2 (Struct_encode_skips_what_is_missing
                           [("a", Schema.String); ("b", Schema.Number)]
                           (VObject [("z", VBoolean true)] : jsvalue Z) eq_refl))).
    intros key [<-|[<-|[]]]; reflexivity.
  - reflexivity.
Defined.


(* ===================================================================== *)
(** * Further properties of validation.ts: decoding twice, the primitive
      schemas, and the [Todo] of the example *)
(* ===================================================================== *)

Section DecodeTwice.
Context {number : Type} `{Runtime number}.
Implicit Types (s item : Schema.shape number) (v : jsvalue number).
Implicit Types (fields : list (string * Schema.shape number)).

Lemma decode_fields_again fields v (decoded result : list (string * jsvalue number)) :
  Forall (fun field =>
            forall x d,
              Schema.decode (Schema.schema_of (snd field)) x = Either.Right d ->
              Schema.decode (Schema.schema_of (snd field)) d = Either.Right d)
    fields ->
  (forall p, In p decoded -> lookup (fst p) result = Datatypes.Some (snd p)) ->
  Forall2 (fun field p =>
             fst p = fst field
             /\ get_property v (fst field) <> VUndefined
             /\ Schema.decode (Schema.schema_of (snd field))
                  (get_property v (fst field)) = Either.Right (snd p))
    fields decoded ->
  flat_map (Schema.field_errors (VObject result)) (Schema.validators_of fields) = []
  /\ flat_map (Schema.field_decoded (VObject result)) (Schema.validators_of fields)
     = decoded.
Proof.
  intros Hagain Hlookup Hdecoded.
  induction Hdecoded as [|field p fields decoded (Hkey & Hdefined & Hdecode) _ IH];
    [now split|].
  inversion Hagain as [|? ? Hfield Hagain']; subst.
  destruct IH as [Herrors Hfields]; [assumption | |].
  { intros p' Hin. apply Hlookup. now right. }
  cbn [Schema.validators_of List.map flat_map].
  fold (Schema.validators_of fields). rewrite Herrors, Hfields.
  unfold Schema.field_errors, Schema.field_decoded. cbn [fst snd].
  unfold get_property. cbn [own_property].
  rewrite <- Hkey, (Hlookup p) by now left. cbv beta iota.
  assert (is_undefined (snd p) = false) as ->.
  { apply decoded_is_defined in Hdecode; [|assumption].
    destruct (snd p); try reflexivity. now contradiction Hdecode. }
  rewrite (Hfield _ _ Hdecode). destruct p as [k r]. now split.
Qed.

Lemma decode_items_again item (items decoded : list (jsvalue number)) :
  (forall x d, Schema.decode (Schema.schema_of item) x = Either.Right d ->
     Schema.decode (Schema.schema_of item) d = Either.Right d) ->
  Forall2 (fun x r => Schema.decode (Schema.schema_of item) x = Either.Right r)
    items decoded ->
  Forall2 (fun r r' => Schema.decode (Schema.schema_of item) r = Either.Right r')
    decoded decoded.
Proof.
  intros Hagain Hall. induction Hall as [|x r items decoded Hx _ IH]; constructor.
  - now apply Hagain with x.
  - exact IH.
Qed.

(** X22: what a schema built from [makePrimitive], [Struct] and [List]
    decoded, it accepts again and decodes to itself: decoding is
    idempotent.  (The records name each field once, and none of them
    [__proto__]: what is decoded for such a field is not kept, so the
    second pass would read what the decoded object inherits instead.) *)
Theorem decode_is_idempotent s v decoded :
  Schema.ordinary_fields s ->
  Schema.decode (Schema.schema_of s) v = Either.Right decoded ->
  Schema.decode (Schema.schema_of s) decoded = Either.Right decoded.
Proof.
  intros Hdistinct. revert v decoded.
  induction s as [guard typeName encoder|fields IH|item IH] using shape_induction;
    intros v decoded Hdecode.
  - cbn in *. destruct (guard v) eqn:Hguard; [|discriminate].
    injection Hdecode as <-. now rewrite Hguard.
  - apply ordinary_fields_struct in Hdistinct as (Hnodup & Hordinary & Hdistinct).
    change (Schema.schema_of (Schema.SStruct fields))
      with (Schema.Struct (Schema.validators_of fields)) in *.
    destruct (Schema.is_object v) eqn:Hobj;
      [|now rewrite (Struct_decode_not_object _ _ Hobj) in Hdecode].
    rewrite (Struct_decode_object _ _ Hobj) in Hdecode.
    destruct (flat_map (Schema.field_errors v) _) eqn:Herrors; [|discriminate].
    injection Hdecode as <-.
    pose proof (fields_all_decoded _ _ Herrors) as Hdecoded.
    set (ds := flat_map (Schema.field_decoded v) (Schema.validators_of fields)) in *.
    assert (NoDup (List.map fst ds)) as Hnodup_ds
      by now rewrite (same_keys _ _ _ Hdecoded).
    assert (~ In "__proto__" (List.map fst ds)) as Hordinary_ds
      by now rewrite (same_keys _ _ _ Hdecoded).
    destruct (decode_fields_again fields v ds (Schema.assign_all [] ds))
      as [Hnone Hsame]; try assumption.
    { rewrite Forall_forall in IH, Hdistinct. apply Forall_forall.
      intros field Hfield x d. apply IH; [assumption | now apply Hdistinct]. }
    { intros p Hin. now apply lookup_assign_all_in. }
    rewrite Struct_decode_object by reflexivity. now rewrite Hnone, Hsame.
  - cbn [Schema.ordinary_fields Schema.schema_of] in *.
    destruct v as [| | | | |items|props|props|description]; try discriminate.
    rewrite List_decode_array in Hdecode.
    destruct (Schema.items_errors _ _ _) eqn:Herrors; [|discriminate].
    injection Hdecode as <-. apply items_all_decoded in Herrors.
    apply List_decode_all_right.
    apply decode_items_again with items; [|assumption].
    intros x d. now apply IH.
Qed.

(** X23: the primitive schemas sort values by type.  A value whose
    [typeof] is ["string"], ["number"], ["boolean"] or ["undefined"], and
    [null], is accepted by exactly one of [String], [Number], [Boolean],
    [Null] and [Undefined]; any other value, which is to say an array, an
    object, a function or a symbol, by none.  What one of them accepts it
    decodes to itself and encodes to itself. *)
Theorem primitive_schemas_sort_by_type (data : jsvalue number) :
  List.length
    (filter (fun schema => Either.isRight (Schema.decode schema data))
       [Schema.String; Schema.Number; Schema.Boolean; Schema.Null;
        Schema.Undefined])
  = (if existsb (String.eqb (typeof data))
          ["string"; "number"; "boolean"; "undefined"]
        || is_null data
     then 1 else 0)
  /\ (typeof data = "function" \/ typeof data = "symbol"
      \/ Schema.is_object data = true ->
      forall schema : Schema.Schema number,
        In schema [Schema.String; Schema.Number; Schema.Boolean; Schema.Null;
                   Schema.Undefined] ->
        Either.isRight (Schema.decode schema data) = false)
  /\ (forall (schema : Schema.Schema number) decoded,
        In schema [Schema.String; Schema.Number; Schema.Boolean; Schema.Null;
                   Schema.Undefined] ->
        Schema.decode schema data = Either.Right decoded ->
        decoded = data /\ Schema.encode schema decoded = Returned data).
Proof.
  split; [|split].
  - destruct data; reflexivity.
  - intros Hsort schema Hin.
    repeat (destruct Hin as [<-|Hin];
            [destruct data; try reflexivity;
             destruct Hsort as [Hsort|[Hsort|Hsort]]; discriminate Hsort|]).
    contradiction.
  - intros schema decoded Hin Hdecode.
    repeat (destruct Hin as [<-|Hin]; [destruct data; try discriminate;
                                        injection Hdecode as <-; now split|]).
    contradiction.
Qed.

(** X24: [Todo] accepts exactly the objects whose [userId] and [id] are
    numbers, whose [title] is a string and whose [completed] is a
    boolean, and it decodes them to the object of these four fields, in
    this order, whatever else the input holds. *)
Theorem Todo_accepts_exactly_todos (data decoded : jsvalue number) :
  Schema.decode Todo data = Either.Right decoded
  <-> Schema.is_object data = true
      /\ typeof (get_property data "userId") = "number"
      /\ typeof (get_property data "id") = "number"
      /\ typeof (get_property data "title") = "string"
      /\ typeof (get_property data "completed") = "boolean"
      /\ decoded = VObject [("userId", get_property data "userId");
                            ("id", get_property data "id");
                            ("title", get_property data "title");
                            ("completed", get_property data "completed")].
Proof.
  unfold Todo. destruct (Schema.is_object data) eqn:Hobj.
  - rewrite (Struct_decode_object _ _ Hobj).
    cbn [flat_map app]. unfold Schema.field_errors, Schema.field_decoded.
    cbn [fst snd Schema.Number Schema.String Schema.Boolean Schema.makePrimitive
         Schema.decode].
    destruct (get_property data "userId") as [| | | | | | | |];
      cbn [is_undefined typeof String.eqb Ascii.eqb Bool.eqb List.map app];
      try (split; [discriminate | intros (_ & [=] & _)]).
    destruct (get_property data "id") as [| | | | | | | |];
      cbn [is_undefined typeof String.eqb Ascii.eqb Bool.eqb List.map app];
      try (split; [discriminate | intros (_ & _ & [=] & _)]).
    destruct (get_property data "title") as [| | | | | | | |];
      cbn [is_undefined typeof String.eqb Ascii.eqb Bool.eqb List.map app];
      try (split; [discriminate | intros (_ & _ & _ & [=] & _)]).
    destruct (get_property data "completed") as [| | | | | | | |];
      cbn [is_undefined typeof String.eqb Ascii.eqb Bool.eqb List.map app];
      try (split; [discriminate | intros (_ & _ & _ & _ & [=] & _)]).
    cbn. split.
    + intros [= <-]. repeat split.
    + intros (_ & _ & _ & _ & _ & ->). reflexivity.
  - rewrite (Struct_decode_not_object _ _ Hobj). split; [discriminate|].
    intros ([=] & _).
Qed.

End DecodeTwice.

(** [Profile] accepts what it decoded from a larger object, unchanged. *)
Lemma decode_is_idempotent_example :
  Schema.decode (Schema.schema_of Profile)
    (VObject [("a", VObject [("b", VNumber 1%Z)]);
              ("tags", VArray [VString "x"])])
  = Either.Right
      (VObject [("a", VObject [("b", VNumber 1%Z)]);
                ("tags", VArray [VString "x"])]).
Proof.
  apply (decode_is_idempotent Profile
           (VObject [("a", VObject [("b", VNumber 1%Z); ("c", VNumber 2%Z)]);
                     ("tags", VArray [VString "x"]);
                     ("z", VBoolean true)])).
  - cbn. repeat apply conj; try exact I;
      repeat constructor; simpl; intuition discriminate.
  - reflexivity.
Defined.

(** ["x"] is accepted by [String], which hands it back; the function
    [map] of an array is accepted by none of the five. *)
Lemma primitive_schemas_sort_by_type_example :
  (VString "x" = (VString "x" : jsvalue Z)
   /\ Schema.encode Schema.String (VString "x" : jsvalue Z) = Returned (VString "x"))
  /\ Either.isRight
       (Schema.decode Schema.Undefined (method Z.of_nat "map" 1)) = false.
Proof.
  split.
  - apply (proj2 (proj2 (primitive_schemas_sort_by_type (VString "x" : jsvalue Z)))
             Schema.String (VString "x")).
    + now left.
    + reflexivity.
  - apply (proj1 (proj2 (primitive_schemas_sort_by_type (method Z.of_nat "map" 1)))).
    + now left.
    + do 4 right. now left.
Defined.
